(** * Gomoku test suite (ESC180): the placeholder engine and its test runner

    The repository ships a placeholder [gomoku.py] (every function raises
    [NotImplementedError]) and the harness [run_all_tests.py] that imports
    the ten engine functions, runs 68 tests against them and turns the
    number of failures into the exit status of the process.

    The embedding below follows the Python files definition by
    definition.  Python exceptions are a sum type, a mutable board passed
    to an engine function is threaded explicitly (the function hands back
    the contents of the board object after the call, also when it
    raises), the rows of a board carry the identity of their list object,
    and the module globals of a runner are a record. *)

From Stdlib Require Import String Ascii List ZArith Lia Bool DecimalString.
Import ListNotations.

Local Open Scope string_scope.
Local Open Scope Z_scope.

(** ** Python runtime: exceptions and results *)

(** Python exceptions.  The first four constructors are instances of
    [Exception], the ones an [except Exception] clause catches;
    [OtherError] stands for any further subclass of [Exception], named by
    its class.  The last three are instances of [BaseException] outside
    [Exception], which such a clause lets through: [SystemExit code] is
    what [sys.exit(code)] raises for an integer [code], and
    [OtherBaseException] is any further one (a [SystemExit] with another
    argument, [GeneratorExit], a class derived from [BaseException]). *)
Inductive exn : Type :=
| NotImplementedError (msg : string)
| AssertionError (msg : string)
| IndexError (msg : string)
| OtherError (cls : string) (msg : string)
| SystemExit (code : Z)
| KeyboardInterrupt
| OtherBaseException (cls : string) (msg : string).

(** [isinstance(e, Exception)] *)
Definition is_Exception (e : exn) : bool :=
  match e with
  | NotImplementedError _ | AssertionError _ | IndexError _ | OtherError _ _ => true
  | SystemExit _ | KeyboardInterrupt | OtherBaseException _ _ => false
  end.

(** The outcome of evaluating a Python expression or statement. *)
Inductive result (A : Type) : Type :=
| Ok (a : A)
| Raise (e : exn).

Arguments Ok {A} a.
Arguments Raise {A} e.

Definition bind {A B : Type} (c : result A) (k : A -> result B) : result B :=
  match c with
  | Ok a => k a
  | Raise e => Raise e
  end.

Declare Scope py_scope.
Delimit Scope py_scope with py.

Notation "x <- c ;; k" := (bind c (fun x => k))
  (at level 61, c at next level, right associativity) : py_scope.
Notation "' p <- c ;; k" := (bind c (fun p => k))
  (at level 61, p pattern, c at next level, right associativity) : py_scope.
Notation "c ;; k" := (bind c (fun _ => k))
  (at level 61, right associativity) : py_scope.

Local Open Scope py_scope.

(** A row of a board is a Python list object that holds one-character
    strings (['b'], ['w'], and [' '] for an empty cell in the harness).
    [ident] tells the objects of one board apart: two rows with the same
    [ident] are one object reached under two subscripts, as in the board
    [[[' '] * 8] * 8], so that a cell written through one of them shows
    through the other. *)
Record row : Type := {
  ident : nat;
  cells : list string
}.

(** A board is a list of rows. *)
Definition board : Type := list row.

(** The outcome of a call that was handed the board object, and the
    contents of that object when the call ends. *)
Definition effect (A : Type) : Type := (result A * board)%type.

(** A call in statement position: its value and the board it leaves. *)
Definition call {A : Type} (c : effect A) : result (A * board) :=
  match fst c with
  | Ok a => Ok (a, snd c)
  | Raise e => Raise e
  end.

(** A call whose value is dropped (the callee returns [None]). *)
Definition exec {A : Type} (c : effect A) : result board :=
  match fst c with
  | Ok _ => Ok (snd c)
  | Raise e => Raise e
  end.

(** ** Python runtime: list subscripts *)

(** The position a subscript [i] denotes in a list of the given length:
    negative subscripts count from the end. *)
Definition norm_index (len : nat) (i : Z) : option nat :=
  let n := Z.of_nat len in
  if (0 <=? i) && (i <? n) then Some (Z.to_nat i)
  else if (- n <=? i) && (i <? 0) then Some (Z.to_nat (n + i))
  else None.

Fixpoint update {A : Type} (l : list A) (k : nat) (v : A) : list A :=
  match l, k with
  | [], _ => []
  | _ :: tl, O => v :: tl
  | x :: tl, S k' => x :: update tl k' v
  end.

(** [l[i]] *)
Definition getitem {A : Type} (l : list A) (i : Z) : result A :=
  match norm_index (length l) i with
  | Some k =>
      match nth_error l k with
      | Some x => Ok x
      | None => Raise (IndexError "list index out of range")
      end
  | None => Raise (IndexError "list index out of range")
  end.

(** [l[i] = v] *)
Definition setitem {A : Type} (l : list A) (i : Z) (v : A) : result (list A) :=
  match norm_index (length l) i with
  | Some k => Ok (update l k v)
  | None => Raise (IndexError "list assignment index out of range")
  end.

(** [b[i][j]] *)
Definition getcell (b : board) (i j : Z) : result string :=
  r <- getitem b i ;;
  getitem (cells r) j.

(** The board once the list object [o] holds the cells [c]: every
    subscript of the board that holds this object shows them. *)
Definition store (o : nat) (c : list string) (b : board) : board :=
  map (fun r => if (ident r =? o)%nat then {| ident := o; cells := c |} else r) b.

(** [b[i][j] = v]: the row object [b[i]] is updated in place; the list
    [b] itself holds the same objects as before. *)
Definition setcell (b : board) (i j : Z) (v : string) : result board :=
  r <- getitem b i ;;
  c <- setitem (cells r) j v ;;
  Ok (store (ident r) c b).

(** A list of new list objects, distinct from one another, with the given
    cells (what a comprehension such as [[row[:] for row in b]] builds). *)
Fixpoint rows_from (o : nat) (rows : list (list string)) : board :=
  match rows with
  | [] => []
  | c :: tl => {| ident := o; cells := c |} :: rows_from (S o) tl
  end.

Definition new_rows (rows : list (list string)) : board := rows_from 0 rows.

(** [range(lo, hi)] *)
Definition range (lo hi : Z) : list Z :=
  map (fun k => lo + Z.of_nat k) (seq 0 (Z.to_nat (hi - lo))).

(** [for x in xs: body] over a loop-carried state. *)
Fixpoint for_each {A S : Type} (xs : list A) (body : A -> S -> result S) (s : S)
  : result S :=
  match xs with
  | [] => Ok s
  | x :: tl => s' <- body x s ;; for_each tl body s'
  end.

(** ** Python runtime: [==], [str] and [repr] of the values the tests compare *)

Definition hex_digit (n : nat) : string :=
  match n with
  | 0%nat => "0" | 1%nat => "1" | 2%nat => "2" | 3%nat => "3"
  | 4%nat => "4" | 5%nat => "5" | 6%nat => "6" | 7%nat => "7"
  | 8%nat => "8" | 9%nat => "9" | 10%nat => "a" | 11%nat => "b"
  | 12%nat => "c" | 13%nat => "d" | 14%nat => "e" | _ => "f"
  end.

Definition has_char (c : ascii) (s : string) : bool :=
  existsb (Ascii.eqb c) (list_ascii_of_string s).

Definition backslash : string := String (ascii_of_nat 92) "".
Definition squote : ascii := ascii_of_nat 39.
Definition dquote : ascii := ascii_of_nat 34.

(** [repr] of one character of a [str] quoted with [q].  Text is held as
    its UTF-8 bytes, and bytes from 128 up are kept as they are: this is
    [repr] for ASCII text and for non-ASCII characters that Python counts
    as printable (the others it writes as escapes, which are not
    modelled). *)
Definition repr_char (q : ascii) (c : ascii) : string :=
  let n := nat_of_ascii c in
  if Ascii.eqb c (ascii_of_nat 92) then backslash ++ backslash
  else if Ascii.eqb c q then backslash ++ String c ""
  else if (n =? 10)%nat then backslash ++ "n"
  else if (n =? 13)%nat then backslash ++ "r"
  else if (n =? 9)%nat then backslash ++ "t"
  else if (n <? 32)%nat || (n =? 127)%nat
       then backslash ++ "x" ++ hex_digit (n / 16) ++ hex_digit (n mod 16)
  else String c "".

(** [repr(s)] of a [str]: single quotes, unless the text holds a single
    quote and no double quote. *)
Definition repr_string (s : string) : string :=
  let q := if has_char squote s && negb (has_char dquote s) then dquote else squote in
  String q "" ++ String.concat "" (map (repr_char q) (list_ascii_of_string s))
    ++ String q "".

(** Decimal text of a Python [int]. *)
Definition str_int (z : Z) : string := NilZero.string_of_int (Z.to_int z).

(** [str(e)] for an exception built from one argument, or from none. *)
Definition exn_str (e : exn) : string :=
  match e with
  | NotImplementedError msg => msg
  | AssertionError msg => msg
  | IndexError msg => msg
  | OtherError _ msg => msg
  | SystemExit code => str_int code
  | KeyboardInterrupt => ""
  | OtherBaseException _ msg => msg
  end.

Class PyVal (A : Type) : Type := {
  py_eqb : A -> A -> bool;
  py_str : A -> string;
  py_repr : A -> string
}.

#[export] Instance PyVal_int : PyVal Z :=
  {| py_eqb := Z.eqb; py_str := str_int; py_repr := str_int |}.

#[export] Instance PyVal_str : PyVal string :=
  {| py_eqb := String.eqb; py_str := fun s => s; py_repr := repr_string |}.

(** An [int] or [None]. *)
Definition option_str {A : Type} (f : A -> string) (o : option A) : string :=
  match o with
  | Some a => f a
  | None => "None"
  end.

Definition option_eqb {A : Type} (f : A -> A -> bool) (x y : option A) : bool :=
  match x, y with
  | Some a, Some b => f a b
  | None, None => true
  | _, _ => false
  end.

#[export] Instance PyVal_option {A : Type} `{PyVal A} : PyVal (option A) :=
  {| py_eqb := option_eqb py_eqb;
     py_str := option_str py_str;
     py_repr := option_str py_repr |}.

(** A 2-tuple: [str] and [repr] agree and use the [repr] of the components. *)
Definition tuple_repr {A B : Type} `{PyVal A} `{PyVal B} (p : A * B) : string :=
  "(" ++ py_repr (fst p) ++ ", " ++ py_repr (snd p) ++ ")".

#[export] Instance PyVal_tuple {A B : Type} `{PyVal A} `{PyVal B} : PyVal (A * B) :=
  {| py_eqb := fun p q => py_eqb (fst p) (fst q) && py_eqb (snd p) (snd q);
     py_str := tuple_repr;
     py_repr := tuple_repr |}.

Fixpoint list_eqb {A : Type} (f : A -> A -> bool) (l1 l2 : list A) : bool :=
  match l1, l2 with
  | [], [] => true
  | x :: t1, y :: t2 => f x y && list_eqb f t1 t2
  | _, _ => false
  end.

Definition list_repr {A : Type} `{PyVal A} (l : list A) : string :=
  "[" ++ String.concat ", " (map py_repr l) ++ "]".

#[export] Instance PyVal_list {A : Type} `{PyVal A} : PyVal (list A) :=
  {| py_eqb := list_eqb py_eqb; py_str := list_repr; py_repr := list_repr |}.

(** A row compares and prints as the list of its cells, whatever object
    it is. *)
#[export] Instance PyVal_row : PyVal row :=
  {| py_eqb := fun r s => py_eqb (cells r) (cells s);
     py_str := fun r => py_str (cells r);
     py_repr := fun r => py_repr (cells r) |}.

(** [x in xs] for a list of candidates. *)
Definition py_in {A : Type} `{PyVal A} (x : A) (xs : list A) : bool :=
  existsb (py_eqb x) xs.

(** [sub in s] for strings. *)
Definition str_contains (sub s : string) : bool :=
  match index 0 sub s with
  | Some _ => true
  | None => false
  end.

(** ** gomoku.py: the placeholder engine *)

Module gomoku.

Definition not_implemented : exn :=
  NotImplementedError "Replace this file with your gomoku.py".

Definition make_empty_board (size : Z) : result board :=
  Raise not_implemented.

Definition put_seq_on_board (board : board) (y x d_y d_x length : Z) (col : string)
  : effect unit :=
  (Raise not_implemented, board).

Definition is_empty (board : board) : effect bool :=
  (Raise not_implemented, board).

Definition is_bounded (board : board) (y_end x_end length d_y d_x : Z)
  : effect string :=
  (Raise not_implemented, board).

Definition detect_row (board : board) (col : string)
  (y_start x_start length d_y d_x : Z) : effect (Z * Z) :=
  (Raise not_implemented, board).

Definition detect_rows (board : board) (col : string) (length : Z)
  : effect (Z * Z) :=
  (Raise not_implemented, board).

Definition score (board : board) : effect Z :=
  (Raise not_implemented, board).

Definition search_max (board : board) : effect (option Z * option Z) :=
  (Raise not_implemented, board).

Definition is_win (board : board) : effect string :=
  (Raise not_implemented, board).

(** The text a call writes to standard output is its value. *)
Definition print_board (board : board) : effect string :=
  (Raise not_implemented, board).

End gomoku.

(** The ten names [run_all_tests.py] imports from whatever module is
    installed as [gomoku].  A function of the module is given by what a
    call does with its arguments: the value it returns or the exception
    it raises (any [exn], [SystemExit] included), and the board it leaves.
    Every call is taken to end, and the record has no place for state the
    module keeps from one call to the next, nor for text a function other
    than [print_board] writes to standard output. *)
Record Engine : Type := {
  make_empty_board : Z -> result board;
  put_seq_on_board : board -> Z -> Z -> Z -> Z -> Z -> string -> effect unit;
  is_empty : board -> effect bool;
  is_bounded : board -> Z -> Z -> Z -> Z -> Z -> effect string;
  detect_row : board -> string -> Z -> Z -> Z -> Z -> Z -> effect (Z * Z);
  detect_rows : board -> string -> Z -> effect (Z * Z);
  score : board -> effect Z;
  search_max : board -> effect (option Z * option Z);
  is_win : board -> effect string;
  print_board : board -> effect string
}.

(** The module of this repository. *)
Definition placeholder : Engine := {|
  make_empty_board := gomoku.make_empty_board;
  put_seq_on_board := gomoku.put_seq_on_board;
  is_empty := gomoku.is_empty;
  is_bounded := gomoku.is_bounded;
  detect_row := gomoku.detect_row;
  detect_rows := gomoku.detect_rows;
  score := gomoku.score;
  search_max := gomoku.search_max;
  is_win := gomoku.is_win;
  print_board := gomoku.print_board
|}.

(** ** run_all_tests.py: test utilities *)

Module run_all_tests.

(** The module globals [failures] and [total_tests], and the lines the
    runner has printed to standard output so far. *)
Record state : Type := {
  failures : Z;
  total_tests : Z;
  stdout : list string
}.

(** The state when the module has been loaded. *)
Definition initial : state :=
  {| failures := 0; total_tests := 0; stdout := [] |}.

(** [print(line)] *)
Definition print (line : string) (g : state) : state :=
  {| failures := failures g;
     total_tests := total_tests g;
     stdout := stdout g ++ [line] |}.

(** [s * n] for a string *)
Fixpoint str_mul (s : string) (n : nat) : string :=
  match n with
  | O => ""
  | S n' => s ++ str_mul s n'
  end.

(** [msg or default]: [None] and the empty string are false. *)
Definition msg_or (msg : option string) (default : string) : string :=
  match msg with
  | Some s => if (s =? "")%string then default else s
  | None => default
  end.

Definition assert_true (cond : bool) (msg : option string) : result unit :=
  if negb cond then Raise (AssertionError (msg_or msg "Assertion failed"))
  else Ok tt.

Definition assert_equal {A : Type} `{PyVal A} (actual expected : A)
  (msg : option string) : result unit :=
  if negb (py_eqb actual expected)
  then Raise (AssertionError
                (msg_or msg ("Expected " ++ py_str expected ++ ", got " ++ py_str actual)))
  else Ok tt.

(** A test function object: its [__name__] and what calling it does. *)
Record test_fn : Type := def {
  __name__ : string;
  body : result unit
}.

(** [run_test] returns [True] or [False]; an exception of the test that
    [except Exception] does not catch leaves [run_test] as it came, after
    [total_tests] has been counted up. *)
Definition run_test (fn : test_fn) (category : string) (g : state)
  : result bool * state :=
  let g := {| failures := failures g;
              total_tests := total_tests g + 1;
              stdout := stdout g |} in
  let name := __name__ fn in
  match body fn with
  | Ok _ => (Ok true, print ("✓ PASS: " ++ name) g)
  | Raise e =>
      if is_Exception e then
        let g := {| failures := failures g + 1;
                    total_tests := total_tests g;
                    stdout := stdout g |} in
        let g := print ("✗ FAIL: " ++ name) g in
        let g := print ("  └─ " ++ exn_str e) g in
        (Ok false, g)
      else (Raise e, g)
  end.

Section Tests.

Variable G : Engine.

(** ** Basic tests *)

Definition test_make_and_is_empty : result unit :=
  b <- make_empty_board G 8 ;;
  '(r, b) <- call (is_empty G b) ;;
  assert_true r None ;;
  b <- setcell b 0 0 "b" ;;
  '(r, b) <- call (is_empty G b) ;;
  assert_true (negb r) None.

Definition test_put_seq_and_detects_vertical_open : result unit :=
  b <- make_empty_board G 8 ;;
  b <- exec (put_seq_on_board G b 1 5 1 0 3 "w") ;;
  c1 <- getcell b 1 5 ;;
  both <- (if py_eqb c1 "w" then c2 <- getcell b 3 5 ;; Ok (py_eqb c2 "w")
           else Ok false) ;;
  assert_true both None ;;
  '(counts, b) <- call (detect_rows G b "w" 3) ;;
  let '(open_count, semi) := counts in
  assert_true (py_eqb (open_count, semi) (1, 0)) None.

Definition test_is_bounded_open_semi_closed : result unit :=
  b <- make_empty_board G 8 ;;
  b <- exec (put_seq_on_board G b 1 5 1 0 3 "w") ;;
  '(r, b) <- call (is_bounded G b 3 5 3 1 0) ;;
  assert_true (py_eqb r "OPEN") None ;;
  b2 <- make_empty_board G 8 ;;
  b2 <- exec (put_seq_on_board G b2 1 5 1 0 3 "w") ;;
  b2 <- setcell b2 0 5 "b" ;;
  '(r, b2) <- call (is_bounded G b2 3 5 3 1 0) ;;
  assert_true (py_eqb r "SEMIOPEN") None ;;
  b3 <- make_empty_board G 8 ;;
  b3 <- exec (put_seq_on_board G b3 1 5 1 0 3 "w") ;;
  b3 <- setcell b3 0 5 "b" ;;
  b3 <- setcell b3 4 5 "b" ;;
  '(r, b3) <- call (is_bounded G b3 3 5 3 1 0) ;;
  assert_true (py_eqb r "CLOSED") None.

Definition test_detect_row_horizontal_and_diagonal : result unit :=
  b <- make_empty_board G 8 ;;
  b <- exec (put_seq_on_board G b 0 0 0 1 4 "b") ;;
  '(counts, b) <- call (detect_row G b "b" 0 0 4 0 1) ;;
  let '(open_count, semi) := counts in
  assert_true (py_eqb (open_count, semi) (0, 1)) None ;;
  b2 <- make_empty_board G 8 ;;
  b2 <- exec (put_seq_on_board G b2 0 4 1 (-1) 3 "b") ;;
  '(counts, b2) <- call (detect_rows G b2 "b" 3) ;;
  let '(oc, sc) := counts in
  assert_true (py_eqb (oc, sc) (0, 1)) None.

Definition test_score_and_win_conditions : result unit :=
  b <- make_empty_board G 8 ;;
  b <- exec (put_seq_on_board G b 0 0 1 0 5 "b") ;;
  '(s, b) <- call (score G b) ;;
  assert_true (py_eqb s 100000) None ;;
  '(w, b) <- call (is_win G b) ;;
  assert_true (py_eqb w "Black won") None ;;
  b2 <- make_empty_board G 8 ;;
  b2 <- exec (put_seq_on_board G b2 2 2 0 1 5 "w") ;;
  '(s, b2) <- call (score G b2) ;;
  assert_true (py_eqb s (-100000)) None ;;
  '(w, b2) <- call (is_win G b2) ;;
  assert_true (py_eqb w "White won") None.

Definition test_search_max_picks_winning_move_and_none_on_empty : result unit :=
  b <- make_empty_board G 8 ;;
  '(m, b) <- call (search_max G b) ;;
  assert_true (py_eqb m (None, None)) None ;;
  b <- exec (put_seq_on_board G b 0 0 1 0 4 "b") ;;
  '(m, b) <- call (search_max G b) ;;
  assert_true (py_eqb m (Some 4, Some 0)) None.

Definition test_print_board_output : result unit :=
  b <- make_empty_board G 3 ;;
  b <- setcell b 0 0 "b" ;;
  b <- setcell b 2 2 "w" ;;
  '(out, b) <- call (print_board G b) ;;
  assert_true (str_contains "*" out) None ;;
  assert_true (str_contains "b" out && str_contains "w" out) None.

(** [b[i][j] = 'b' if (i + j) % 2 == 0 else 'w'] for [i], [j] in [range(n)] *)
Definition fill_checkerboard (n : Z) (b : board) : result board :=
  for_each (range 0 n) (fun i b =>
    for_each (range 0 n) (fun j b =>
      setcell b i j (if (i + j) mod 2 =? 0 then "b" else "w")) b) b.

Definition test_continue_playing_and_draw : result unit :=
  b <- make_empty_board G 8 ;;
  b <- setcell b 0 0 "b" ;;
  '(w, b) <- call (is_win G b) ;;
  assert_true (py_eqb w "Continue playing") None ;;
  b2 <- make_empty_board G 8 ;;
  b2 <- fill_checkerboard 8 b2 ;;
  '(w, b2) <- call (is_win G b2) ;;
  assert_true (py_eqb w "Draw") None.

(** ** Edge case tests: board boundaries *)

Definition test_sequence_at_top_left_corner : result unit :=
  b <- make_empty_board G 8 ;;
  b <- exec (put_seq_on_board G b 0 0 0 1 3 "b") ;;
  '(r, b) <- call (is_bounded G b 0 2 3 0 1) ;;
  assert_equal r "SEMIOPEN" None ;;
  b2 <- make_empty_board G 8 ;;
  b2 <- exec (put_seq_on_board G b2 0 0 1 0 3 "w") ;;
  '(r, b2) <- call (is_bounded G b2 2 0 3 1 0) ;;
  assert_equal r "SEMIOPEN" None ;;
  b3 <- make_empty_board G 8 ;;
  b3 <- exec (put_seq_on_board G b3 0 0 1 1 3 "b") ;;
  '(r, b3) <- call (is_bounded G b3 2 2 3 1 1) ;;
  assert_equal r "SEMIOPEN" None.

Definition test_sequence_at_bottom_right_corner : result unit :=
  b <- make_empty_board G 8 ;;
  b <- exec (put_seq_on_board G b 7 5 0 1 3 "b") ;;
  '(r, b) <- call (is_bounded G b 7 7 3 0 1) ;;
  assert_equal r "SEMIOPEN" None ;;
  b2 <- make_empty_board G 8 ;;
  b2 <- exec (put_seq_on_board G b2 5 7 1 0 3 "w") ;;
  '(r, b2) <- call (is_bounded G b2 7 7 3 1 0) ;;
  assert_equal r "SEMIOPEN" None.

Definition test_sequence_at_all_four_corners : result unit :=
  b <- make_empty_board G 5 ;;
  b <- setcell b 0 0 "b" ;;
  b <- setcell b 0 4 "b" ;;
  b <- setcell b 4 0 "b" ;;
  b <- setcell b 4 4 "b" ;;
  '(counts, b) <- call (detect_rows G b "b" 2) ;;
  let '(open_c, semi_c) := counts in
  assert_equal (open_c, semi_c) (0, 0) None.

Definition test_sequence_along_top_edge : result unit :=
  b <- make_empty_board G 8 ;;
  b <- exec (put_seq_on_board G b 0 2 0 1 4 "b") ;;
  '(r, b) <- call (is_bounded G b 0 5 4 0 1) ;;
  assert_equal r "OPEN" None.

Definition test_sequence_along_left_edge : result unit :=
  b <- make_empty_board G 8 ;;
  b <- exec (put_seq_on_board G b 2 0 1 0 4 "w") ;;
  '(r, b) <- call (is_bounded G b 5 0 4 1 0) ;;
  assert_equal r "OPEN" None.

Definition test_sequence_along_bottom_edge : result unit :=
  b <- make_empty_board G 8 ;;
  b <- exec (put_seq_on_board G b 7 2 0 1 4 "b") ;;
  '(r, b) <- call (is_bounded G b 7 5 4 0 1) ;;
  assert_equal r "OPEN" None.

Definition test_sequence_along_right_edge : result unit :=
  b <- make_empty_board G 8 ;;
  b <- exec (put_seq_on_board G b 2 7 1 0 4 "w") ;;
  '(r, b) <- call (is_bounded G b 5 7 4 1 0) ;;
  assert_equal r "OPEN" None.

Definition test_diagonal_from_top_edge_to_right_edge : result unit :=
  b <- make_empty_board G 8 ;;
  b <- exec (put_seq_on_board G b 0 5 1 1 3 "b") ;;
  '(r, b) <- call (is_bounded G b 2 7 3 1 1) ;;
  assert_equal r "CLOSED" None.

Definition test_diagonal_from_left_edge_to_bottom_edge : result unit :=
  b <- make_empty_board G 8 ;;
  b <- exec (put_seq_on_board G b 5 0 1 1 3 "w") ;;
  '(r, b) <- call (is_bounded G b 7 2 3 1 1) ;;
  assert_equal r "CLOSED" None.

(** ** Edge case tests: sequence detection *)

Definition test_single_stone_no_sequence : result unit :=
  b <- make_empty_board G 8 ;;
  b <- setcell b 3 3 "b" ;;
  b <- for_each (range 2 6) (fun length b =>
         '(counts, b) <- call (detect_rows G b "b" length) ;;
         let '(open_c, semi_c) := counts in
         assert_equal (open_c, semi_c) (0, 0)
           (Some ("Single stone detected as length " ++ py_str length)) ;;
         Ok b) b ;;
  Ok tt.

Definition test_two_stones_not_adjacent : result unit :=
  b <- make_empty_board G 8 ;;
  b <- setcell b 0 0 "b" ;;
  b <- setcell b 0 2 "b" ;;
  '(counts, b) <- call (detect_rows G b "b" 2) ;;
  let '(open_c, semi_c) := counts in
  assert_equal (open_c, semi_c) (0, 0) None.

Definition test_exactly_five_in_a_row : result unit :=
  b <- make_empty_board G 8 ;;
  b <- exec (put_seq_on_board G b 3 1 0 1 5 "b") ;;
  '(counts, b) <- call (detect_rows G b "b" 5) ;;
  let '(open_c, semi_c) := counts in
  assert_equal (open_c, semi_c) (1, 0) None ;;
  '(w, b) <- call (is_win G b) ;;
  assert_equal w "Black won" None.

Definition test_more_than_five_in_a_row : result unit :=
  b <- make_empty_board G 8 ;;
  b <- exec (put_seq_on_board G b 3 0 0 1 7 "b") ;;
  '(w, b) <- call (is_win G b) ;;
  assert_equal w "Black won" (Some "7 stones in a row should be detected as a win").

Definition test_overlapping_sequences : result unit :=
  b <- make_empty_board G 8 ;;
  b <- exec (put_seq_on_board G b 3 1 0 1 5 "b") ;;
  b <- exec (put_seq_on_board G b 1 3 1 0 5 "w") ;;
  '(result, b) <- call (is_win G b) ;;
  assert_true (py_in result ["Black won"; "White won"])
    (Some ("Should detect a winner with crossing sequences, got " ++ py_str result)).

Definition test_parallel_sequences : result unit :=
  b <- make_empty_board G 8 ;;
  b <- exec (put_seq_on_board G b 0 1 0 1 4 "b") ;;
  b <- exec (put_seq_on_board G b 1 1 0 1 4 "b") ;;
  b <- exec (put_seq_on_board G b 2 1 0 1 4 "b") ;;
  '(counts, b) <- call (detect_rows G b "b" 4) ;;
  let '(open_c, semi_c) := counts in
  assert_true (open_c + semi_c >=? 3) (Some "Should detect all 3 parallel sequences").

Definition test_blocked_sequence_both_ends : result unit :=
  b <- make_empty_board G 8 ;;
  b <- setcell b 3 2 "w" ;;
  b <- exec (put_seq_on_board G b 3 3 0 1 3 "b") ;;
  b <- setcell b 3 6 "w" ;;
  '(r, b) <- call (is_bounded G b 3 5 3 0 1) ;;
  assert_equal r "CLOSED" None.

Definition test_blocked_sequence_one_end : result unit :=
  b <- make_empty_board G 8 ;;
  b <- setcell b 3 2 "w" ;;
  b <- exec (put_seq_on_board G b 3 3 0 1 3 "b") ;;
  '(r, b) <- call (is_bounded G b 3 5 3 0 1) ;;
  assert_equal r "SEMIOPEN" None.

Definition test_blocked_by_same_color : result unit :=
  b <- make_empty_board G 8 ;;
  b <- exec (put_seq_on_board G b 3 2 0 1 3 "b") ;;
  b <- setcell b 3 5 "b" ;;
  '(counts3, b) <- call (detect_rows G b "b" 3) ;;
  let '(open_3, semi_3) := counts3 in
  '(counts4, b) <- call (detect_rows G b "b" 4) ;;
  let '(open_4, semi_4) := counts4 in
  assert_equal (open_3, semi_3) (0, 0)
    (Some "Should not detect 3-length when it's part of 4").

Definition test_diagonal_negative_slope : result unit :=
  b <- make_empty_board G 8 ;;
  b <- exec (put_seq_on_board G b 1 6 1 (-1) 4 "b") ;;
  c <- getcell b 1 6 ;;
  assert_equal c "b" None ;;
  c <- getcell b 4 3 ;;
  assert_equal c "b" None ;;
  '(counts, b) <- call (detect_rows G b "b" 4) ;;
  let '(open_c, semi_c) := counts in
  assert_true (open_c + semi_c >=? 1) (Some "Should detect diagonal sequence").

Definition test_all_four_directions : result unit :=
  b <- make_empty_board G 8 ;;
  b <- exec (put_seq_on_board G b 3 1 0 1 4 "b") ;;
  b <- exec (put_seq_on_board G b 1 5 1 0 4 "w") ;;
  b <- exec (put_seq_on_board G b 4 0 1 1 4 "b") ;;
  b <- exec (put_seq_on_board G b 1 7 1 (-1) 4 "w") ;;
  '(counts_b, b) <- call (detect_rows G b "b" 4) ;;
  let '(open_b, semi_b) := counts_b in
  '(counts_w, b) <- call (detect_rows G b "w" 4) ;;
  let '(open_w, semi_w) := counts_w in
  assert_true (open_b + semi_b >=? 2) (Some "Should detect black sequences") ;;
  assert_true (open_w + semi_w >=? 2) (Some "Should detect white sequences").

(** ** Edge case tests: win detection *)

Definition test_win_with_five_horizontal : result unit :=
  b <- make_empty_board G 8 ;;
  b <- exec (put_seq_on_board G b 3 1 0 1 5 "b") ;;
  '(w, b) <- call (is_win G b) ;;
  assert_equal w "Black won" None.

Definition test_win_with_five_vertical : result unit :=
  b <- make_empty_board G 8 ;;
  b <- exec (put_seq_on_board G b 1 3 1 0 5 "w") ;;
  '(w, b) <- call (is_win G b) ;;
  assert_equal w "White won" None.

Definition test_win_with_five_diagonal_positive : result unit :=
  b <- make_empty_board G 8 ;;
  b <- exec (put_seq_on_board G b 1 1 1 1 5 "b") ;;
  '(w, b) <- call (is_win G b) ;;
  assert_equal w "Black won" None.

Definition test_win_with_five_diagonal_negative : result unit :=
  b <- make_empty_board G 8 ;;
  b <- exec (put_seq_on_board G b 1 6 1 (-1) 5 "w") ;;
  '(w, b) <- call (is_win G b) ;;
  assert_equal w "White won" None.

Definition test_no_win_with_four : result unit :=
  b <- make_empty_board G 8 ;;
  b <- exec (put_seq_on_board G b 3 2 0 1 4 "b") ;;
  '(w, b) <- call (is_win G b) ;;
  assert_equal w "Continue playing" None.

Definition test_draw_on_full_board_no_winner : result unit :=
  b <- make_empty_board G 8 ;;
  b <- fill_checkerboard 8 b ;;
  '(w, b) <- call (is_win G b) ;;
  assert_equal w "Draw" None.

Definition test_continue_playing_on_empty_board : result unit :=
  b <- make_empty_board G 8 ;;
  '(w, b) <- call (is_win G b) ;;
  assert_equal w "Continue playing" None.

Definition test_continue_playing_with_moves_but_no_five : result unit :=
  b <- make_empty_board G 8 ;;
  b <- setcell b 0 0 "b" ;;
  b <- setcell b 0 1 "w" ;;
  b <- setcell b 1 0 "b" ;;
  b <- setcell b 1 1 "w" ;;
  '(w, b) <- call (is_win G b) ;;
  assert_equal w "Continue playing" None.

Definition test_both_players_have_five_simultaneously : result unit :=
  b <- make_empty_board G 8 ;;
  b <- exec (put_seq_on_board G b 0 0 0 1 5 "b") ;;
  b <- exec (put_seq_on_board G b 1 0 0 1 5 "w") ;;
  '(result, b) <- call (is_win G b) ;;
  assert_true (py_in result ["Black won"; "White won"])
    (Some ("Should detect a winner, got " ++ py_str result)).

(** ** Edge case tests: scoring *)

Definition test_score_empty_board : result unit :=
  b <- make_empty_board G 8 ;;
  '(s, b) <- call (score G b) ;;
  assert_equal s 0 (Some "Empty board should have score 0").

Definition test_score_single_stone : result unit :=
  b <- make_empty_board G 8 ;;
  b <- setcell b 3 3 "b" ;;
  '(s, b) <- call (score G b) ;;
  assert_true ((-1000 <? s) && (s <? 1000))
    (Some ("Single stone should have small score, got " ++ py_str s)).

Definition test_score_black_winning : result unit :=
  b <- make_empty_board G 8 ;;
  b <- exec (put_seq_on_board G b 3 1 0 1 5 "b") ;;
  '(s, b) <- call (score G b) ;;
  assert_equal s 100000 None.

Definition test_score_white_winning : result unit :=
  b <- make_empty_board G 8 ;;
  b <- exec (put_seq_on_board G b 3 1 0 1 5 "w") ;;
  '(s, b) <- call (score G b) ;;
  assert_equal s (-100000) None.

Definition test_score_black_open_four : result unit :=
  b <- make_empty_board G 8 ;;
  b <- exec (put_seq_on_board G b 3 2 0 1 4 "b") ;;
  '(s, b) <- call (score G b) ;;
  assert_true (s >=? 500) (Some ("Black open 4 should score >= 500, got " ++ py_str s)).

Definition test_score_white_open_four : result unit :=
  b <- make_empty_board G 8 ;;
  b <- exec (put_seq_on_board G b 3 2 0 1 4 "w") ;;
  '(s, b) <- call (score G b) ;;
  assert_true (s <=? -10000)
    (Some ("White open 4 should score <= -10000, got " ++ py_str s)).

Definition test_score_blocking_more_valuable : result unit :=
  b <- make_empty_board G 8 ;;
  b <- exec (put_seq_on_board G b 3 2 0 1 4 "w") ;;
  '(s, b) <- call (score G b) ;;
  assert_true (s <=? -10000)
    (Some ("White threat should score <= -10000, got " ++ py_str s)).

Definition test_score_multiple_open_threes : result unit :=
  b <- make_empty_board G 8 ;;
  b <- exec (put_seq_on_board G b 0 1 0 1 3 "b") ;;
  b <- exec (put_seq_on_board G b 1 1 0 1 3 "b") ;;
  '(s, b) <- call (score G b) ;;
  assert_true (s >? 50)
    (Some ("Multiple open 3s should have positive score, got " ++ py_str s)).

Definition test_score_semi_open_less_than_open : result unit :=
  b1 <- make_empty_board G 8 ;;
  b1 <- exec (put_seq_on_board G b1 3 2 0 1 3 "b") ;;
  '(score_open, b1) <- call (score G b1) ;;
  b2 <- make_empty_board G 8 ;;
  b2 <- exec (put_seq_on_board G b2 3 2 0 1 3 "b") ;;
  b2 <- setcell b2 3 1 "w" ;;
  '(score_semi, b2) <- call (score G b2) ;;
  assert_true (score_open >? score_semi)
    (Some "Open sequence should score higher than semi-open").

(** ** Edge case tests: search_max *)

(** The text [({y},{x})] the failure messages show for a returned move. *)
Definition move_text (y x : option Z) : string :=
  "(" ++ py_str y ++ "," ++ py_str x ++ ")".

Definition test_search_max_empty_board : result unit :=
  b <- make_empty_board G 8 ;;
  '(m, b) <- call (search_max G b) ;;
  assert_equal m (None, None) None.

Definition test_search_max_one_empty_cell : result unit :=
  b <- make_empty_board G 8 ;;
  b <- for_each (range 0 8) (fun i b =>
         for_each (range 0 8) (fun j b =>
           if negb ((i =? 3) && (j =? 3))
           then setcell b i j (if (i + j) mod 2 =? 0 then "b" else "w")
           else Ok b) b) b ;;
  '(m, b) <- call (search_max G b) ;;
  let '(y, x) := m in
  assert_equal (y, x) (Some 3, Some 3)
    (Some ("With only one empty cell, should return (3,3), got " ++ move_text y x)).

Definition test_search_max_blocks_opponent_win : result unit :=
  b <- make_empty_board G 8 ;;
  b <- exec (put_seq_on_board G b 3 1 0 1 4 "w") ;;
  '(m, b) <- call (search_max G b) ;;
  let '(y, x) := m in
  assert_true (py_in (y, x) [(Some 3, Some 0); (Some 3, Some 5)])
    (Some ("Should block white's winning threat at (3,0) or (3,5), got "
             ++ move_text y x)).

Definition test_search_max_takes_winning_move : result unit :=
  b <- make_empty_board G 8 ;;
  b <- exec (put_seq_on_board G b 3 1 0 1 4 "b") ;;
  '(m, b) <- call (search_max G b) ;;
  let '(y, x) := m in
  assert_true (py_in (y, x) [(Some 3, Some 0); (Some 3, Some 5)])
    (Some ("Should win at (3,0) or (3,5), got " ++ move_text y x)).

Definition test_search_max_prefers_winning_over_blocking : result unit :=
  b <- make_empty_board G 8 ;;
  b <- exec (put_seq_on_board G b 0 1 0 1 4 "b") ;;
  b <- exec (put_seq_on_board G b 2 1 0 1 3 "w") ;;
  '(m, b) <- call (search_max G b) ;;
  let '(y, x) := m in
  assert_true (py_in (y, x) [(Some 0, Some 0); (Some 0, Some 5)])
    (Some ("Should take winning move at (0,0) or (0,5), got " ++ move_text y x)).

Definition test_search_max_full_board : result unit :=
  b <- make_empty_board G 8 ;;
  b <- for_each (range 0 8) (fun i b =>
         for_each (range 0 8) (fun j b => setcell b i j "b") b) b ;;
  '(m, b) <- call (search_max G b) ;;
  assert_equal m (None, None) None.

(** ** Edge case tests: detect_row *)

Definition test_detect_row_entire_row_filled : result unit :=
  b <- make_empty_board G 8 ;;
  b <- exec (put_seq_on_board G b 0 0 0 1 8 "b") ;;
  '(counts, b) <- call (detect_rows G b "b" 5) ;;
  let '(open_all, semi_all) := counts in
  assert_true (open_all + semi_all >=? 1)
    (Some "8 stones in a row must contain at least one 5-sequence").

Definition test_detect_row_alternating_colors : result unit :=
  b <- make_empty_board G 8 ;;
  b <- for_each (range 0 8) (fun i b =>
         setcell b 0 i (if i mod 2 =? 0 then "b" else "w")) b ;;
  '(counts_b, b) <- call (detect_row G b "b" 0 0 2 0 1) ;;
  let '(open_b, semi_b) := counts_b in
  '(counts_w, b) <- call (detect_row G b "w" 0 0 2 0 1) ;;
  let '(open_w, semi_w) := counts_w in
  assert_equal (open_b, semi_b) (0, 0) None ;;
  assert_equal (open_w, semi_w) (0, 0) None.

Definition test_detect_row_with_gaps : result unit :=
  b <- make_empty_board G 12 ;;
  b <- exec (put_seq_on_board G b 0 0 0 1 3 "b") ;;
  b <- exec (put_seq_on_board G b 0 4 0 1 3 "b") ;;
  b <- exec (put_seq_on_board G b 0 8 0 1 3 "b") ;;
  '(counts, b) <- call (detect_row G b "b" 0 0 3 0 1) ;;
  let '(open_c, semi_c) := counts in
  assert_true (open_c + semi_c >=? 3)
    (Some ("Should detect 3 sequences, got " ++ py_str open_c ++ " open and "
             ++ py_str semi_c ++ " semi")).

Definition test_detect_row_starts_mid_sequence : result unit :=
  b <- make_empty_board G 8 ;;
  b <- exec (put_seq_on_board G b 2 0 0 1 5 "b") ;;
  '(counts, b) <- call (detect_row G b "b" 2 2 5 0 1) ;;
  let '(open_c, semi_c) := counts in
  assert_true (open_c + semi_c >=? 0) (Some "Should handle starting mid-sequence").

(** ** Edge case tests: is_bounded *)

Definition test_is_bounded_length_one : result unit :=
  b <- make_empty_board G 8 ;;
  b <- setcell b 3 3 "b" ;;
  '(r, b) <- call (is_bounded G b 3 3 1 0 1) ;;
  assert_equal r "OPEN" None.

Definition test_is_bounded_at_exact_board_boundary : result unit :=
  b <- make_empty_board G 8 ;;
  b <- exec (put_seq_on_board G b 0 0 0 1 3 "b") ;;
  '(result, b) <- call (is_bounded G b 0 2 3 0 1) ;;
  assert_true (py_in result ["SEMIOPEN"; "CLOSED"])
    (Some ("Boundary sequence should be SEMIOPEN or CLOSED, got " ++ py_str result)).

Definition test_is_bounded_surrounded_by_empty : result unit :=
  b <- make_empty_board G 8 ;;
  b <- exec (put_seq_on_board G b 3 3 0 1 3 "b") ;;
  '(r, b) <- call (is_bounded G b 3 5 3 0 1) ;;
  assert_equal r "OPEN" None.

Definition test_is_bounded_surrounded_by_opponent : result unit :=
  b <- make_empty_board G 8 ;;
  b <- setcell b 3 2 "w" ;;
  b <- exec (put_seq_on_board G b 3 3 0 1 3 "b") ;;
  b <- setcell b 3 6 "w" ;;
  '(r, b) <- call (is_bounded G b 3 5 3 0 1) ;;
  assert_equal r "CLOSED" None.

(** ** Edge case tests: put_seq_on_board *)

Definition test_put_seq_length_zero : result unit :=
  b <- make_empty_board G 8 ;;
  let original := new_rows (map (fun row => cells row) b) in
  b <- exec (put_seq_on_board G b 3 3 0 1 0 "b") ;;
  assert_equal b original None.

Definition test_put_seq_length_one : result unit :=
  b <- make_empty_board G 8 ;;
  b <- exec (put_seq_on_board G b 3 3 0 1 1 "b") ;;
  c <- getcell b 3 3 ;;
  assert_equal c "b" None ;;
  let count :=
    Z.of_nat (List.length (filter (fun cell => negb (py_eqb cell " "))
                             (flat_map (fun row => cells row) b))) in
  assert_equal count 1 None.

Definition test_put_seq_overwrites_existing : result unit :=
  b <- make_empty_board G 8 ;;
  b <- exec (put_seq_on_board G b 3 3 0 1 3 "b") ;;
  b <- exec (put_seq_on_board G b 3 3 0 1 3 "w") ;;
  c <- getcell b 3 3 ;;
  assert_equal c "w" None ;;
  c <- getcell b 3 4 ;;
  assert_equal c "w" None ;;
  c <- getcell b 3 5 ;;
  assert_equal c "w" None.

(** ** Edge case tests: complex game scenarios *)

Definition test_complex_mid_game_position : result unit :=
  b <- make_empty_board G 8 ;;
  b <- setcell b 4 4 "b" ;;
  b <- setcell b 4 5 "b" ;;
  b <- setcell b 5 4 "b" ;;
  b <- setcell b 3 3 "b" ;;
  b <- setcell b 4 3 "w" ;;
  b <- setcell b 5 5 "w" ;;
  b <- setcell b 6 4 "w" ;;
  '(w, b) <- call (is_win G b) ;;
  assert_equal w "Continue playing" None ;;
  '(s, b) <- call (score G b) ;;
  assert_true (negb (s =? 0)) (Some "Mid-game should have non-zero score").

Definition test_capture_pattern : result unit :=
  b <- make_empty_board G 8 ;;
  b <- setcell b 3 2 "w" ;;
  b <- setcell b 3 3 "b" ;;
  b <- setcell b 3 4 "b" ;;
  b <- setcell b 3 5 "w" ;;
  '(counts, b) <- call (detect_rows G b "b" 2) ;;
  let '(open_c, semi_c) := counts in
  assert_equal (open_c, semi_c) (0, 0)
    (Some "Fully blocked sequence should not be counted as open or semi-open").

Definition test_double_threat : result unit :=
  b <- make_empty_board G 8 ;;
  b <- exec (put_seq_on_board G b 0 1 0 1 4 "b") ;;
  b <- exec (put_seq_on_board G b 1 1 0 1 4 "b") ;;
  '(s, b) <- call (score G b) ;;
  assert_true (s >=? 1000)
    (Some ("Double threat should have high score, got " ++ py_str s)).

Definition test_fork_attack : result unit :=
  b <- make_empty_board G 8 ;;
  b <- exec (put_seq_on_board G b 4 2 0 1 3 "b") ;;
  b <- exec (put_seq_on_board G b 2 4 1 0 3 "b") ;;
  '(counts, b) <- call (detect_rows G b "b" 3) ;;
  let '(open_c, semi_c) := counts in
  assert_true (open_c + semi_c >=? 2) (Some "Fork should create multiple threats").

Definition test_near_full_board : result unit :=
  b <- make_empty_board G 8 ;;
  b <- for_each (range 0 8) (fun i b =>
         for_each (range 0 8) (fun j b =>
           if negb (((i =? 4) && (j =? 4)) || ((i =? 4) && (j =? 5)))
           then setcell b i j (if (i + j) mod 2 =? 0 then "b" else "w")
           else Ok b) b) b ;;
  '(w, b) <- call (is_win G b) ;;
  assert_equal w "Continue playing" None ;;
  '(m, b) <- call (search_max G b) ;;
  let '(y, x) := m in
  assert_true (py_in (y, x) [(Some 4, Some 4); (Some 4, Some 5)])
    (Some ("Should suggest one of two empty cells, got " ++ move_text y x)).

(** ** The master test runner *)

Definition basic_tests : list test_fn := [
    def "test_make_and_is_empty" test_make_and_is_empty;
    def "test_put_seq_and_detects_vertical_open" test_put_seq_and_detects_vertical_open;
    def "test_is_bounded_open_semi_closed" test_is_bounded_open_semi_closed;
    def "test_detect_row_horizontal_and_diagonal" test_detect_row_horizontal_and_diagonal;
    def "test_score_and_win_conditions" test_score_and_win_conditions;
    def "test_search_max_picks_winning_move_and_none_on_empty" test_search_max_picks_winning_move_and_none_on_empty;
    def "test_print_board_output" test_print_board_output;
    def "test_continue_playing_and_draw" test_continue_playing_and_draw
  ].

Definition edge_tests : list test_fn := [
    def "test_sequence_at_top_left_corner" test_sequence_at_top_left_corner;
    def "test_sequence_at_bottom_right_corner" test_sequence_at_bottom_right_corner;
    def "test_sequence_at_all_four_corners" test_sequence_at_all_four_corners;
    def "test_sequence_along_top_edge" test_sequence_along_top_edge;
    def "test_sequence_along_left_edge" test_sequence_along_left_edge;
    def "test_sequence_along_bottom_edge" test_sequence_along_bottom_edge;
    def "test_sequence_along_right_edge" test_sequence_along_right_edge;
    def "test_diagonal_from_top_edge_to_right_edge" test_diagonal_from_top_edge_to_right_edge;
    def "test_diagonal_from_left_edge_to_bottom_edge" test_diagonal_from_left_edge_to_bottom_edge;
    def "test_single_stone_no_sequence" test_single_stone_no_sequence;
    def "test_two_stones_not_adjacent" test_two_stones_not_adjacent;
    def "test_exactly_five_in_a_row" test_exactly_five_in_a_row;
    def "test_more_than_five_in_a_row" test_more_than_five_in_a_row;
    def "test_overlapping_sequences" test_overlapping_sequences;
    def "test_parallel_sequences" test_parallel_sequences;
    def "test_blocked_sequence_both_ends" test_blocked_sequence_both_ends;
    def "test_blocked_sequence_one_end" test_blocked_sequence_one_end;
    def "test_blocked_by_same_color" test_blocked_by_same_color;
    def "test_diagonal_negative_slope" test_diagonal_negative_slope;
    def "test_all_four_directions" test_all_four_directions;
    def "test_win_with_five_horizontal" test_win_with_five_horizontal;
    def "test_win_with_five_vertical" test_win_with_five_vertical;
    def "test_win_with_five_diagonal_positive" test_win_with_five_diagonal_positive;
    def "test_win_with_five_diagonal_negative" test_win_with_five_diagonal_negative;
    def "test_no_win_with_four" test_no_win_with_four;
    def "test_draw_on_full_board_no_winner" test_draw_on_full_board_no_winner;
    def "test_continue_playing_on_empty_board" test_continue_playing_on_empty_board;
    def "test_continue_playing_with_moves_but_no_five" test_continue_playing_with_moves_but_no_five;
    def "test_both_players_have_five_simultaneously" test_both_players_have_five_simultaneously;
    def "test_score_empty_board" test_score_empty_board;
    def "test_score_single_stone" test_score_single_stone;
    def "test_score_black_winning" test_score_black_winning;
    def "test_score_white_winning" test_score_white_winning;
    def "test_score_black_open_four" test_score_black_open_four;
    def "test_score_white_open_four" test_score_white_open_four;
    def "test_score_blocking_more_valuable" test_score_blocking_more_valuable;
    def "test_score_multiple_open_threes" test_score_multiple_open_threes;
    def "test_score_semi_open_less_than_open" test_score_semi_open_less_than_open;
    def "test_search_max_empty_board" test_search_max_empty_board;
    def "test_search_max_one_empty_cell" test_search_max_one_empty_cell;
    def "test_search_max_blocks_opponent_win" test_search_max_blocks_opponent_win;
    def "test_search_max_takes_winning_move" test_search_max_takes_winning_move;
    def "test_search_max_prefers_winning_over_blocking" test_search_max_prefers_winning_over_blocking;
    def "test_search_max_full_board" test_search_max_full_board;
    def "test_detect_row_entire_row_filled" test_detect_row_entire_row_filled;
    def "test_detect_row_alternating_colors" test_detect_row_alternating_colors;
    def "test_detect_row_with_gaps" test_detect_row_with_gaps;
    def "test_detect_row_starts_mid_sequence" test_detect_row_starts_mid_sequence;
    def "test_is_bounded_length_one" test_is_bounded_length_one;
    def "test_is_bounded_at_exact_board_boundary" test_is_bounded_at_exact_board_boundary;
    def "test_is_bounded_surrounded_by_empty" test_is_bounded_surrounded_by_empty;
    def "test_is_bounded_surrounded_by_opponent" test_is_bounded_surrounded_by_opponent;
    def "test_put_seq_length_zero" test_put_seq_length_zero;
    def "test_put_seq_length_one" test_put_seq_length_one;
    def "test_put_seq_overwrites_existing" test_put_seq_overwrites_existing;
    def "test_complex_mid_game_position" test_complex_mid_game_position;
    def "test_capture_pattern" test_capture_pattern;
    def "test_double_threat" test_double_threat;
    def "test_fork_attack" test_fork_attack;
    def "test_near_full_board" test_near_full_board
  ].

End Tests.

(** [for test in tests: run_test(test)]: an exception that leaves
    [run_test] ends the loop. *)
Fixpoint run_tests (tests : list test_fn) (g : state) : result unit * state :=
  match tests with
  | [] => (Ok tt, g)
  | test :: rest =>
      match run_test test "" g with
      | (Ok _, g) => run_tests rest g
      | (Raise e, g) => (Raise e, g)
      end
  end.

(** [sys.exit(code)] *)
Definition sys_exit (code : Z) (g : state) : result unit * state :=
  (Raise (SystemExit code), g).

Section Main.

Variable G : Engine.

(** The text of [passed / total_tests * 100] under the format [.1f], for
    [total_tests > 0]: float division and float formatting are Python's
    own and are left open here. *)
Variable percent_1f : Z -> Z -> string.

(** [main] never returns: it ends in the [SystemExit] of its last line,
    which sets the exit status of the process, or in the exception that
    left one of the two loops.  It yields that exception together with
    the final globals and output. *)
Definition main (g : state) : result unit * state :=
  let g := print (str_mul "=" 70) g in
  let g := print "GOMOKU COMPREHENSIVE TEST SUITE" g in
  let g := print (str_mul "=" 70) g in
  let g := print "" g in
  let g := print "🔹 BASIC TESTS (8 tests)" g in
  let g := print (str_mul "-" 70) g in
  match run_tests (basic_tests G) g with
  | (Raise e, g) => (Raise e, g)
  | (Ok _, g) =>
      let g := print "" g in
      let g := print "🔹 EDGE CASE TESTS (60 tests)" g in
      let g := print (str_mul "-" 70) g in
      match run_tests (edge_tests G) g with
      | (Raise e, g) => (Raise e, g)
      | (Ok _, g) =>
          let g := print "" g in
          let g := print (str_mul "=" 70) g in
          let passed := total_tests g - failures g in
          let pass_rate :=
            if total_tests g >? 0 then percent_1f passed (total_tests g) else "0.0" in
          let g :=
            if failures g =? 0
            then print ("✅ SUCCESS! All " ++ py_str (total_tests g)
                          ++ " tests PASSED! 🎉") g
            else
              let g := print ("⚠️  RESULTS: " ++ py_str passed ++ "/"
                                ++ py_str (total_tests g)
                                ++ " tests passed (" ++ pass_rate ++ "%)") g in
              print ("❌ " ++ py_str (failures g) ++ " test(s) FAILED") g in
          let g := print (str_mul "=" 70) g in
          sys_exit (if failures g =? 0 then 0 else 1) g
      end
  end.

(** [if __name__ == '__main__': main()] on the freshly loaded module. *)
Definition script : result unit * state := main initial.

End Main.

End run_all_tests.

(** ** What the runner reports for one test *)

Import run_all_tests.

(** A test passes when calling it returns normally. *)
Definition passed (t : test_fn) : bool :=
  match body t with
  | Ok _ => true
  | Raise _ => false
  end.

(** The exception of a test that [run_test] does not catch. *)
Definition escapes (t : test_fn) : option exn :=
  match body t with
  | Ok _ => None
  | Raise e => if is_Exception e then None else Some e
  end.

(** Calling the test returns, or raises an instance of [Exception]. *)
Definition raises_only_Exception (t : test_fn) : bool :=
  match escapes t with
  | None => true
  | Some _ => false
  end.

(** The lines [run_test] prints for a test. *)
Definition report (t : test_fn) : list string :=
  match body t with
  | Ok _ => ["✓ PASS: " ++ __name__ t]
  | Raise e =>
      if is_Exception e
      then ["✗ FAIL: " ++ __name__ t; "  └─ " ++ exn_str e]
      else []
  end.

(** The first line [run_test] prints for a test whose exception, if any,
    it catches. *)
Definition verdict (t : test_fn) : string :=
  if passed t then "✓ PASS: " ++ __name__ t else "✗ FAIL: " ++ __name__ t.

(** The number of tests of a list that raise. *)
Fixpoint count_failed (ts : list test_fn) : Z :=
  match ts with
  | [] => 0
  | t :: rest => (if passed t then 0 else 1) + count_failed rest
  end.

(** The tests of a list that a loop of [run_test] sees through: those
    before the first one whose exception [run_test] does not catch. *)
Fixpoint completed (ts : list test_fn) : list test_fn :=
  match ts with
  | [] => []
  | t :: rest =>
      match escapes t with
      | None => t :: completed rest
      | Some _ => []
      end
  end.

(** The exception that ends such a loop early, if any. *)
Fixpoint first_escape (ts : list test_fn) : option exn :=
  match ts with
  | [] => None
  | t :: rest =>
      match escapes t with
      | None => first_escape rest
      | Some e => Some e
      end
  end.

(** The lines [main] prints before the first test, between the two lists
    and after the last test, up to the summary. *)
Definition banner : list string :=
  [str_mul "=" 70; "GOMOKU COMPREHENSIVE TEST SUITE"; str_mul "=" 70; "";
   "🔹 BASIC TESTS (8 tests)"; str_mul "-" 70].

Definition interlude : list string :=
  [""; "🔹 EDGE CASE TESTS (60 tests)"; str_mul "-" 70].

(** ** Boards used as concrete inputs *)

(** The cells of a row written as text: a cell per character. *)
Definition cells_of (text : string) : list string :=
  map (fun c => String c "") (list_ascii_of_string text).

(** The board with the given rows, each a list object of its own. *)
Definition board_of (rows : list string) : board := new_rows (map cells_of rows).

Definition empty8 : board :=
  board_of ["        "; "        "; "        "; "        ";
            "        "; "        "; "        "; "        "].

(** Black stones at (3,2)..(3,5): a maximal horizontal run of four. *)
Definition run4_board : board :=
  board_of ["        "; "        "; "        "; "  bbbb  ";
            "        "; "        "; "        "; "        "].

(** Black stones along the whole of row 0: a maximal run of eight. *)
Definition run8_board : board :=
  board_of ["bbbbbbbb"; "        "; "        "; "        ";
            "        "; "        "; "        "; "        "].

(** Five black stones on row 0 and five white stones on row 1. *)
Definition both_five_board : board :=
  board_of ["bbbbb   "; "wwwww   "; "        "; "        ";
            "        "; "        "; "        "; "        "].

(** Five black stones at (3,1)..(3,5). *)
Definition black_five_board : board :=
  board_of ["        "; "        "; "        "; " bbbbb  ";
            "        "; "        "; "        "; "        "].

(** Five white stones at (3,1)..(3,5). *)
Definition white_five_board : board :=
  board_of ["        "; "        "; "        "; " wwwww  ";
            "        "; "        "; "        "; "        "].

(** Four black stones at (3,1)..(3,4). *)
Definition black_four_board : board :=
  board_of ["        "; "        "; "        "; " bbbb   ";
            "        "; "        "; "        "; "        "].

(** White stones at (1,5)..(3,5): a vertical run of three, both flanks empty. *)
Definition white_three_board : board :=
  board_of ["        "; "     w  "; "     w  "; "     w  ";
            "        "; "        "; "        "; "        "].

(** Black stones at (0,5), (1,6), (2,7): a diagonal run that starts on the
    top edge and ends on the right edge. *)
Definition edge_diagonal_board : board :=
  board_of ["     b  "; "      b "; "       b"; "        ";
            "        "; "        "; "        "; "        "].

(** Black stones at (3,2)..(3,4), both flanks empty. *)
Definition open_three_board : board :=
  board_of ["        "; "        "; "        "; "  bbb   ";
            "        "; "        "; "        "; "        "].

(** The same run with a white stone on its left flank (3,1). *)
Definition semiopen_three_board : board :=
  board_of ["        "; "        "; "        "; " wbbb   ";
            "        "; "        "; "        "; "        "].

(** Every cell black. *)
Definition full_board : board :=
  board_of ["bbbbbbbb"; "bbbbbbbb"; "bbbbbbbb"; "bbbbbbbb";
            "bbbbbbbb"; "bbbbbbbb"; "bbbbbbbb"; "bbbbbbbb"].

(** A call returns a value: it does not raise. *)
Definition returns {A : Type} (c : effect A) : Prop :=
  exists v : A, fst c = Ok v.

(** The error every placeholder function raises. *)
Definition unimplemented {A : Type} : result A := Raise gomoku.not_implemented.

(** ** A sample of what may be installed in place of the placeholder *)

(** [[[' '] * n for _ in range(n)]]: a list object per row. *)
Definition blank_board (n : Z) : board :=
  new_rows (repeat (repeat " " (Z.to_nat n)) (Z.to_nat n)).

(** [[[' '] * n] * n]: one list object under every subscript. *)
Definition shared_row_board (n : Z) : board :=
  repeat {| ident := 0; cells := repeat " " (Z.to_nat n) |} (Z.to_nat n).

(** No two rows of the board are the same list object. *)
Fixpoint all_distinct (os : list nat) : bool :=
  match os with
  | [] => true
  | o :: tl => negb (existsb (Nat.eqb o) tl) && all_distinct tl
  end.

Definition distinct_rows (b : board) : bool := all_distinct (map ident b).

(** Not a file of the repository: an engine that builds blank boards,
    places no stone and gives every query one fixed answer.  It serves as
    a concrete engine on which some tests pass and others fail. *)
Definition sample_engine : Engine := {|
  make_empty_board := fun size => Ok (blank_board size);
  put_seq_on_board := fun b _ _ _ _ _ _ => (Ok tt, b);
  is_empty := fun b => (Ok true, b);
  is_bounded := fun b _ _ _ _ _ => (Ok "OPEN", b);
  detect_row := fun b _ _ _ _ _ _ => (Ok (0, 0), b);
  detect_rows := fun b _ _ => (Ok (0, 0), b);
  score := fun b => (Ok 0, b);
  search_max := fun b => (Ok (None, None), b);
  is_win := fun b => (Ok "Black won", b);
  print_board := fun b => (Ok "", b)
|}.

(** ** The summary of run_all_tests.py in closed form *)

(** The lines [main] prints after the last test, for the final values of
    [total_tests] and [failures]. *)
Definition summary (percent_1f : Z -> Z -> string) (total failed : Z) : list string :=
  [""; str_mul "=" 70]
  ++ (if failed =? 0
      then ["✅ SUCCESS! All " ++ py_str total ++ " tests PASSED! 🎉"]
      else ["⚠️  RESULTS: " ++ py_str (total - failed) ++ "/" ++ py_str total
              ++ " tests passed ("
              ++ (if total >? 0 then percent_1f (total - failed) total else "0.0")
              ++ "%)";
            "❌ " ++ py_str failed ++ " test(s) FAILED"])
  ++ [str_mul "=" 70].

(** The newline character inside a printed text. *)
Definition nl : string := String (ascii_of_nat 10) "".

(** ** gomoku-test-suite/test_gomoku_runner.py *)

Module test_gomoku_runner.

(** The module global [failures] and the texts printed so far, one per
    call of [print]. *)
Record state : Type := {
  failures : Z;
  stdout : list string
}.

Definition initial : state := {| failures := 0; stdout := [] |}.

Definition print (text : string) (g : state) : state :=
  {| failures := failures g; stdout := stdout g ++ [text] |}.

Definition assert_true (cond : bool) (msg : option string) : result unit :=
  if negb cond then Raise (AssertionError (msg_or msg "Assertion failed"))
  else Ok tt.

(** An exception of the test that [except Exception] does not catch
    leaves [run_test] as it came. *)
Definition run_test (fn : test_fn) (g : state) : result unit * state :=
  let name := __name__ fn in
  match body fn with
  | Ok _ => (Ok tt, print ("PASS: " ++ name) g)
  | Raise e =>
      if is_Exception e then
        let g := {| failures := failures g + 1; stdout := stdout g |} in
        (Ok tt, print ("FAIL: " ++ name ++ " -> " ++ exn_str e) g)
      else (Raise e, g)
  end.

(** [for t in tests: run_test(t)]: an exception that leaves [run_test]
    ends the loop. *)
Fixpoint run_tests (tests : list test_fn) (g : state) : result unit * state :=
  match tests with
  | [] => (Ok tt, g)
  | t :: rest =>
      match run_test t g with
      | (Ok _, g) => run_tests rest g
      | (Raise e, g) => (Raise e, g)
      end
  end.

(** [sys.exit(code)] *)
Definition sys_exit (code : Z) (g : state) : result unit * state :=
  (Raise (SystemExit code), g).

Section Tests.

Variable G : Engine.

(** The first seven tests have the text of the tests of the same name in
    run_all_tests.py. *)

Definition test_make_and_is_empty : result unit :=
  run_all_tests.test_make_and_is_empty G.

Definition test_put_seq_and_detects_vertical_open : result unit :=
  run_all_tests.test_put_seq_and_detects_vertical_open G.

Definition test_is_bounded_open_semi_closed : result unit :=
  run_all_tests.test_is_bounded_open_semi_closed G.

Definition test_detect_row_horizontal_and_diagonal : result unit :=
  run_all_tests.test_detect_row_horizontal_and_diagonal G.

Definition test_score_and_win_conditions : result unit :=
  run_all_tests.test_score_and_win_conditions G.

Definition test_search_max_picks_winning_move_and_none_on_empty : result unit :=
  run_all_tests.test_search_max_picks_winning_move_and_none_on_empty G.

Definition test_print_board_output : result unit :=
  run_all_tests.test_print_board_output G.

(** The eighth differs from its namesake in the board sizes, 4 and 5. *)
Definition test_continue_playing_and_draw : result unit :=
  b <- make_empty_board G 4 ;;
  b <- setcell b 0 0 "b" ;;
  '(w, b) <- call (is_win G b) ;;
  assert_true (py_eqb w "Continue playing") None ;;
  b2 <- make_empty_board G 5 ;;
  b2 <- fill_checkerboard 5 b2 ;;
  '(w, b2) <- call (is_win G b2) ;;
  assert_true (py_eqb w "Draw") None.

Definition tests : list test_fn := [
    def "test_make_and_is_empty" test_make_and_is_empty;
    def "test_put_seq_and_detects_vertical_open" test_put_seq_and_detects_vertical_open;
    def "test_is_bounded_open_semi_closed" test_is_bounded_open_semi_closed;
    def "test_detect_row_horizontal_and_diagonal" test_detect_row_horizontal_and_diagonal;
    def "test_score_and_win_conditions" test_score_and_win_conditions;
    def "test_search_max_picks_winning_move_and_none_on_empty" test_search_max_picks_winning_move_and_none_on_empty;
    def "test_print_board_output" test_print_board_output;
    def "test_continue_playing_and_draw" test_continue_playing_and_draw
  ].

Definition main (g : state) : result unit * state :=
  match run_tests tests g with
  | (Raise e, g) => (Raise e, g)
  | (Ok _, g) =>
      if negb (failures g =? 0)
      then
        let g := print (nl ++ py_str (failures g) ++ " test(s) failed") g in
        sys_exit 1 g
      else
        let g := print (nl ++ "All tests passed") g in
        sys_exit 0 g
  end.

Definition script : result unit * state := main initial.

End Tests.

End test_gomoku_runner.

(** ** gomoku-test-suite/test_gomoku_edge_cases.py *)

Module test_gomoku_edge_cases.

(** This file has its own copies of [failures], [assert_true],
    [assert_equal] and [run_test], with the text of those of
    test_gomoku_runner.py and run_all_tests.py, and the sixty edge tests
    with the text of those of run_all_tests.py. *)

Section Tests.

Variable G : Engine.

Definition tests : list test_fn := [
    def "test_sequence_at_top_left_corner" (run_all_tests.test_sequence_at_top_left_corner G);
    def "test_sequence_at_bottom_right_corner" (run_all_tests.test_sequence_at_bottom_right_corner G);
    def "test_sequence_at_all_four_corners" (run_all_tests.test_sequence_at_all_four_corners G);
    def "test_sequence_along_top_edge" (run_all_tests.test_sequence_along_top_edge G);
    def "test_sequence_along_left_edge" (run_all_tests.test_sequence_along_left_edge G);
    def "test_sequence_along_bottom_edge" (run_all_tests.test_sequence_along_bottom_edge G);
    def "test_sequence_along_right_edge" (run_all_tests.test_sequence_along_right_edge G);
    def "test_diagonal_from_top_edge_to_right_edge" (run_all_tests.test_diagonal_from_top_edge_to_right_edge G);
    def "test_diagonal_from_left_edge_to_bottom_edge" (run_all_tests.test_diagonal_from_left_edge_to_bottom_edge G);
    def "test_single_stone_no_sequence" (run_all_tests.test_single_stone_no_sequence G);
    def "test_two_stones_not_adjacent" (run_all_tests.test_two_stones_not_adjacent G);
    def "test_exactly_five_in_a_row" (run_all_tests.test_exactly_five_in_a_row G);
    def "test_more_than_five_in_a_row" (run_all_tests.test_more_than_five_in_a_row G);
    def "test_overlapping_sequences" (run_all_tests.test_overlapping_sequences G);
    def "test_parallel_sequences" (run_all_tests.test_parallel_sequences G);
    def "test_blocked_sequence_both_ends" (run_all_tests.test_blocked_sequence_both_ends G);
    def "test_blocked_sequence_one_end" (run_all_tests.test_blocked_sequence_one_end G);
    def "test_blocked_by_same_color" (run_all_tests.test_blocked_by_same_color G);
    def "test_diagonal_negative_slope" (run_all_tests.test_diagonal_negative_slope G);
    def "test_all_four_directions" (run_all_tests.test_all_four_directions G);
    def "test_win_with_five_horizontal" (run_all_tests.test_win_with_five_horizontal G);
    def "test_win_with_five_vertical" (run_all_tests.test_win_with_five_vertical G);
    def "test_win_with_five_diagonal_positive" (run_all_tests.test_win_with_five_diagonal_positive G);
    def "test_win_with_five_diagonal_negative" (run_all_tests.test_win_with_five_diagonal_negative G);
    def "test_no_win_with_four" (run_all_tests.test_no_win_with_four G);
    def "test_draw_on_full_board_no_winner" (run_all_tests.test_draw_on_full_board_no_winner G);
    def "test_continue_playing_on_empty_board" (run_all_tests.test_continue_playing_on_empty_board G);
    def "test_continue_playing_with_moves_but_no_five" (run_all_tests.test_continue_playing_with_moves_but_no_five G);
    def "test_both_players_have_five_simultaneously" (run_all_tests.test_both_players_have_five_simultaneously G);
    def "test_score_empty_board" (run_all_tests.test_score_empty_board G);
    def "test_score_single_stone" (run_all_tests.test_score_single_stone G);
    def "test_score_black_winning" (run_all_tests.test_score_black_winning G);
    def "test_score_white_winning" (run_all_tests.test_score_white_winning G);
    def "test_score_black_open_four" (run_all_tests.test_score_black_open_four G);
    def "test_score_white_open_four" (run_all_tests.test_score_white_open_four G);
    def "test_score_blocking_more_valuable" (run_all_tests.test_score_blocking_more_valuable G);
    def "test_score_multiple_open_threes" (run_all_tests.test_score_multiple_open_threes G);
    def "test_score_semi_open_less_than_open" (run_all_tests.test_score_semi_open_less_than_open G);
    def "test_search_max_empty_board" (run_all_tests.test_search_max_empty_board G);
    def "test_search_max_one_empty_cell" (run_all_tests.test_search_max_one_empty_cell G);
    def "test_search_max_blocks_opponent_win" (run_all_tests.test_search_max_blocks_opponent_win G);
    def "test_search_max_takes_winning_move" (run_all_tests.test_search_max_takes_winning_move G);
    def "test_search_max_prefers_winning_over_blocking" (run_all_tests.test_search_max_prefers_winning_over_blocking G);
    def "test_search_max_full_board" (run_all_tests.test_search_max_full_board G);
    def "test_detect_row_entire_row_filled" (run_all_tests.test_detect_row_entire_row_filled G);
    def "test_detect_row_alternating_colors" (run_all_tests.test_detect_row_alternating_colors G);
    def "test_detect_row_with_gaps" (run_all_tests.test_detect_row_with_gaps G);
    def "test_detect_row_starts_mid_sequence" (run_all_tests.test_detect_row_starts_mid_sequence G);
    def "test_is_bounded_length_one" (run_all_tests.test_is_bounded_length_one G);
    def "test_is_bounded_at_exact_board_boundary" (run_all_tests.test_is_bounded_at_exact_board_boundary G);
    def "test_is_bounded_surrounded_by_empty" (run_all_tests.test_is_bounded_surrounded_by_empty G);
    def "test_is_bounded_surrounded_by_opponent" (run_all_tests.test_is_bounded_surrounded_by_opponent G);
    def "test_put_seq_length_zero" (run_all_tests.test_put_seq_length_zero G);
    def "test_put_seq_length_one" (run_all_tests.test_put_seq_length_one G);
    def "test_put_seq_overwrites_existing" (run_all_tests.test_put_seq_overwrites_existing G);
    def "test_complex_mid_game_position" (run_all_tests.test_complex_mid_game_position G);
    def "test_capture_pattern" (run_all_tests.test_capture_pattern G);
    def "test_double_threat" (run_all_tests.test_double_threat G);
    def "test_fork_attack" (run_all_tests.test_fork_attack G);
    def "test_near_full_board" (run_all_tests.test_near_full_board G)
  ].

Definition main (g : test_gomoku_runner.state)
  : result unit * test_gomoku_runner.state :=
  let n := Z.of_nat (length tests) in
  let g := test_gomoku_runner.print
             ("Running " ++ py_str n ++ " edge case tests..." ++ nl) g in
  match test_gomoku_runner.run_tests tests g with
  | (Raise e, g) => (Raise e, g)
  | (Ok _, g) =>
      let g := test_gomoku_runner.print (nl ++ str_mul "=" 70) g in
      if negb (test_gomoku_runner.failures g =? 0)
      then
        let g := test_gomoku_runner.print
                   ("RESULT: " ++ py_str (test_gomoku_runner.failures g)
                      ++ " test(s) FAILED out of " ++ py_str n ++ " total") g in
        let g := test_gomoku_runner.print (str_mul "=" 70) g in
        test_gomoku_runner.sys_exit 1 g
      else
        let g := test_gomoku_runner.print
                   ("RESULT: All " ++ py_str n ++ " tests PASSED! ✓") g in
        let g := test_gomoku_runner.print (str_mul "=" 70) g in
        test_gomoku_runner.sys_exit 0 g
  end.

Definition script : result unit * test_gomoku_runner.state :=
  main test_gomoku_runner.initial.

End Tests.

End test_gomoku_edge_cases.

(** ** gomoku-test-suite/test_gomoku.py: the tests written for pytest *)

Module test_gomoku.

(** The statement [assert cond]: without a message the exception carries
    no text.  (The text pytest adds when it reports a failed assertion
    does not change which tests raise.) *)
Definition assert_ (cond : bool) : result unit :=
  if negb cond then Raise (AssertionError "") else Ok tt.

Section Tests.

Variable G : Engine.

Definition test_make_and_is_empty : result unit :=
  b <- make_empty_board G 8 ;;
  '(r, b) <- call (is_empty G b) ;;
  assert_ r ;;
  b <- setcell b 0 0 "b" ;;
  '(r, b) <- call (is_empty G b) ;;
  assert_ (negb r).

Definition test_put_seq_and_detects_vertical_open : result unit :=
  b <- make_empty_board G 8 ;;
  b <- exec (put_seq_on_board G b 1 5 1 0 3 "w") ;;
  c1 <- getcell b 1 5 ;;
  both <- (if py_eqb c1 "w" then c2 <- getcell b 3 5 ;; Ok (py_eqb c2 "w")
           else Ok false) ;;
  assert_ both ;;
  '(counts, b) <- call (detect_rows G b "w" 3) ;;
  let '(open_count, semi) := counts in
  assert_ (py_eqb (open_count, semi) (1, 0)).

Definition test_is_bounded_open_semi_closed : result unit :=
  b <- make_empty_board G 8 ;;
  b <- exec (put_seq_on_board G b 1 5 1 0 3 "w") ;;
  '(r, b) <- call (is_bounded G b 3 5 3 1 0) ;;
  assert_ (py_eqb r "OPEN") ;;
  b2 <- make_empty_board G 8 ;;
  b2 <- exec (put_seq_on_board G b2 1 5 1 0 3 "w") ;;
  b2 <- setcell b2 0 5 "b" ;;
  '(r, b2) <- call (is_bounded G b2 3 5 3 1 0) ;;
  assert_ (py_eqb r "SEMIOPEN") ;;
  b3 <- make_empty_board G 8 ;;
  b3 <- exec (put_seq_on_board G b3 1 5 1 0 3 "w") ;;
  b3 <- setcell b3 0 5 "b" ;;
  b3 <- setcell b3 4 5 "b" ;;
  '(r, b3) <- call (is_bounded G b3 3 5 3 1 0) ;;
  assert_ (py_eqb r "CLOSED").

Definition test_detect_row_horizontal_and_diagonal : result unit :=
  b <- make_empty_board G 8 ;;
  b <- exec (put_seq_on_board G b 0 0 0 1 4 "b") ;;
  '(counts, b) <- call (detect_row G b "b" 0 0 4 0 1) ;;
  let '(open_count, semi) := counts in
  assert_ (py_eqb (open_count, semi) (0, 1)) ;;
  b2 <- make_empty_board G 8 ;;
  b2 <- exec (put_seq_on_board G b2 0 4 1 (-1) 3 "b") ;;
  '(counts, b2) <- call (detect_rows G b2 "b" 3) ;;
  let '(oc, sc) := counts in
  assert_ (py_eqb (oc, sc) (0, 1)).

Definition test_score_and_win_conditions : result unit :=
  b <- make_empty_board G 8 ;;
  b <- exec (put_seq_on_board G b 0 0 1 0 5 "b") ;;
  '(s, b) <- call (score G b) ;;
  assert_ (py_eqb s 100000) ;;
  '(w, b) <- call (is_win G b) ;;
  assert_ (py_eqb w "Black won") ;;
  b2 <- make_empty_board G 8 ;;
  b2 <- exec (put_seq_on_board G b2 2 2 0 1 5 "w") ;;
  '(s, b2) <- call (score G b2) ;;
  assert_ (py_eqb s (-100000)) ;;
  '(w, b2) <- call (is_win G b2) ;;
  assert_ (py_eqb w "White won").

Definition test_search_max_picks_winning_move_and_none_on_empty : result unit :=
  b <- make_empty_board G 8 ;;
  '(m, b) <- call (search_max G b) ;;
  assert_ (py_eqb m (None, None)) ;;
  b <- exec (put_seq_on_board G b 0 0 1 0 4 "b") ;;
  '(m, b) <- call (search_max G b) ;;
  assert_ (py_eqb m (Some 4, Some 0)).

(** [capsys.readouterr().out] is all the text written to standard output
    since the test began; [print_board] being the one engine function
    that writes any, it is the text [print_board] wrote. *)
Definition test_print_board_output : result unit :=
  b <- make_empty_board G 3 ;;
  b <- setcell b 0 0 "b" ;;
  b <- setcell b 2 2 "w" ;;
  '(out, b) <- call (print_board G b) ;;
  assert_ (str_contains "*" out) ;;
  assert_ (str_contains "b" out && str_contains "w" out).

Definition test_continue_playing_and_draw : result unit :=
  b <- make_empty_board G 4 ;;
  b <- setcell b 0 0 "b" ;;
  '(w, b) <- call (is_win G b) ;;
  assert_ (py_eqb w "Continue playing") ;;
  b2 <- make_empty_board G 5 ;;
  b2 <- fill_checkerboard 5 b2 ;;
  '(w, b2) <- call (is_win G b2) ;;
  assert_ (py_eqb w "Draw").

End Tests.

End test_gomoku.

(** ** A further sample engine *)

(** Not a file of the repository: the sample engine with the verdict
    "Draw" on every board. *)
Definition draw_engine : Engine := {|
  make_empty_board := fun size => Ok (blank_board size);
  put_seq_on_board := fun b _ _ _ _ _ _ => (Ok tt, b);
  is_empty := fun b => (Ok true, b);
  is_bounded := fun b _ _ _ _ _ => (Ok "OPEN", b);
  detect_row := fun b _ _ _ _ _ _ => (Ok (0, 0), b);
  detect_rows := fun b _ _ => (Ok (0, 0), b);
  score := fun b => (Ok 0, b);
  search_max := fun b => (Ok (None, None), b);
  is_win := fun b => (Ok "Draw", b);
  print_board := fun b => (Ok "", b)
|}.

(** Not a file of the repository: the sample engine whose
    [make_empty_board] calls [sys.exit(0)]. *)
Definition exiting_engine : Engine := {|
  make_empty_board := fun size => Raise (SystemExit 0);
  put_seq_on_board := put_seq_on_board sample_engine;
  is_empty := is_empty sample_engine;
  is_bounded := is_bounded sample_engine;
  detect_row := detect_row sample_engine;
  detect_rows := detect_rows sample_engine;
  score := score sample_engine;
  search_max := search_max sample_engine;
  is_win := is_win sample_engine;
  print_board := print_board sample_engine
|}.


(** [length] stones of color [col] written from (y, x) on, one step of
    (d_y, d_x) apart. *)
Fixpoint place (b : board) (y x d_y d_x : Z) (length : nat) (col : string)
  : result board :=
  match length with
  | O => Ok b
  | S n => b <- setcell b y x col ;; place b (y + d_y) (x + d_x) d_y d_x n col
  end.

(** Not a file of the repository: the sample engine with a
    [put_seq_on_board] that places the stones it is asked to. *)
Definition placing_engine : Engine := {|
  make_empty_board := make_empty_board sample_engine;
  put_seq_on_board := fun b y x d_y d_x length col =>
    match place b y x d_y d_x (Z.to_nat length) col with
    | Ok b' => (Ok tt, b')
    | Raise e => (Raise e, b)
    end;
  is_empty := is_empty sample_engine;
  is_bounded := is_bounded sample_engine;
  detect_row := detect_row sample_engine;
  detect_rows := detect_rows sample_engine;
  score := score sample_engine;
  search_max := search_max sample_engine;
  is_win := is_win sample_engine;
  print_board := print_board sample_engine
|}.

(** ** Vocabulary for the further properties *)




Definition is_ok {A : Type} (r : result A) : bool :=
  match r with
  | Ok _ => true
  | Raise _ => false
  end.

(** The color the checkerboard loops write at (i, j). *)
Definition checker (i j : Z) : string :=
  if (i + j) mod 2 =? 0 then "b" else "w".

(** Rows [s], ..., [s + m - 1] of the board exist and hold at least [n]
    cells each. *)
Fixpoint rows_ok (n s m : nat) (b : board) : bool :=
  match m with
  | O => true
  | S m' =>
      match nth_error b s with
      | Some r => (n <=? length (cells r))%nat && rows_ok n (S s) m' b
      | None => false
      end
  end.

(** The board has an [n] by [n] corner: at least [n] rows, the first [n]
    of at least [n] cells. *)
Definition big_enough (n : Z) (b : board) : bool :=
  rows_ok (Z.to_nat n) 0 (Z.to_nat n) b.

(** Cells [s], ..., [s + m - 1] of a row overwritten with [f]. *)
Fixpoint paint (f : Z -> string) (s m : nat) (c : list string) : list string :=
  match m with
  | O => c
  | S m' => paint f (S s) m' (update c s (f (Z.of_nat s)))
  end.

(** A row with its first [n] cells painted in the colors of row [k]. *)
Definition painted (n k : nat) (r : row) : row :=
  {| ident := ident r; cells := paint (checker (Z.of_nat k)) 0 n (cells r) |}.

(** The 8 by 8 checkerboard the draw tests build. *)
Definition checkerboard8 : board :=
  board_of ["bwbwbwbw"; "wbwbwbwb"; "bwbwbwbw"; "wbwbwbwb";
            "bwbwbwbw"; "wbwbwbwb"; "bwbwbwbw"; "wbwbwbwb"].

(** * Properties *)

(** ** The runner *)

Lemma run_test_outcome (t : test_fn) (category : string) (g : state) :
  run_test t category g =
    match escapes t with
    | None =>
        (Ok (passed t),
         {| failures := failures g + (if passed t then 0 else 1);
            total_tests := total_tests g + 1;
            stdout := stdout g ++ report t |})
    | Some e =>
        (Raise e,
         {| failures := failures g;
            total_tests := total_tests g + 1;
            stdout := stdout g |})
    end.
Proof.
  unfold run_test, escapes, passed, report, print.
  destruct (body t) as [u | e]; cbn [failures total_tests stdout].
  - now rewrite Z.add_0_r.
  - destruct (is_Exception e); cbn [failures total_tests stdout].
    + now rewrite <- app_assoc.
    + reflexivity.
Qed.

(** A test that returns is reported as passed and leaves [failures] alone. *)
Example run_test_on_passing_test :
  run_test (def "test_ok" (Ok tt)) "" initial =
    (Ok true, {| failures := 0; total_tests := 1; stdout := ["✓ PASS: test_ok"] |}).
Proof. reflexivity. Qed.

(** A failed assertion is caught, counted and reported with its message. *)
Example run_test_on_failing_test :
  run_test (def "test_ko" (assert_equal 1 2 None)) "" initial =
    (Ok false, {| failures := 1; total_tests := 1;
                  stdout := ["✗ FAIL: test_ko"; "  └─ Expected 2, got 1"] |}).
Proof. reflexivity. Qed.

(** A [SystemExit] is not caught: the test is counted in [total_tests],
    nothing is printed for it and [failures] stays as it was. *)
Example run_test_on_exiting_test :
  run_test (def "test_exit" (Raise (SystemExit 0))) "" initial =
    (Raise (SystemExit 0), {| failures := 0; total_tests := 1; stdout := [] |}).
Proof. reflexivity. Qed.

(** The loop over a list of tests: it sees through the tests before the
    first one whose exception [run_test] does not catch, and ends in that
    exception.  Every test seen through adds one to [total_tests], its own
    report to the output, and one to [failures] exactly when it raised;
    the test that ends the loop is counted in [total_tests] only. *)
Lemma run_tests_outcome (ts : list test_fn) :
  forall g : state,
    run_tests ts g =
      (match first_escape ts with
       | Some e => Raise e
       | None => Ok tt
       end,
       {| failures := failures g + count_failed (completed ts);
          total_tests := total_tests g + Z.of_nat (length (completed ts))
                         + (match first_escape ts with
                            | Some _ => 1
                            | None => 0
                            end);
          stdout := stdout g ++ flat_map report (completed ts) |}).
Proof.
  induction ts as [| t rest IH]; intros g.
  - cbn [run_tests first_escape completed count_failed length flat_map].
    rewrite !Z.add_0_r, app_nil_r. now destruct g.
  - cbn [run_tests first_escape completed]. rewrite run_test_outcome.
    destruct (escapes t) as [e |].
    + cbn [count_failed length flat_map failures total_tests stdout].
      rewrite !Z.add_0_r, app_nil_r. reflexivity.
    + rewrite IH.
      cbn [failures total_tests stdout count_failed flat_map length].
      f_equal. f_equal.
      * lia.
      * lia.
      * now rewrite <- app_assoc.
Qed.

(** When every test raises instances of [Exception] only, the loop sees
    all of them through. *)
Lemma completed_all (ts : list test_fn) :
  forallb raises_only_Exception ts = true ->
  completed ts = ts /\ first_escape ts = None.
Proof.
  induction ts as [| t rest IH]; cbn [forallb completed first_escape].
  - intros _. split; reflexivity.
  - intros H. apply andb_prop in H as [Ht Hrest].
    unfold raises_only_Exception in Ht.
    destruct (escapes t); [discriminate |].
    destruct (IH Hrest) as [-> ->]. split; reflexivity.
Qed.

Lemma run_tests_sees_all_through (ts : list test_fn) (g : state) :
  forallb raises_only_Exception ts = true ->
  run_tests ts g =
    (Ok tt,
     {| failures := failures g + count_failed ts;
        total_tests := total_tests g + Z.of_nat (length ts);
        stdout := stdout g ++ flat_map report ts |}).
Proof.
  intros H. rewrite run_tests_outcome.
  destruct (completed_all ts H) as [-> ->].
  now rewrite Z.add_0_r.
Qed.

Lemma count_failed_nonneg (ts : list test_fn) : 0 <= count_failed ts.
Proof.
  induction ts as [| t rest IH]; cbn [count_failed]; [lia |].
  destruct (passed t); lia.
Qed.

Lemma count_failed_app (ts us : list test_fn) :
  count_failed (ts ++ us) = count_failed ts + count_failed us.
Proof.
  induction ts as [| t rest IH]; cbn [count_failed app]; [reflexivity |].
  rewrite IH. lia.
Qed.

Lemma count_failed_zero (ts : list test_fn) :
  count_failed ts = 0 <-> forall t, In t ts -> passed t = true.
Proof.
  induction ts as [| t rest IH]; cbn [count_failed].
  - split; [intros _ t [] | reflexivity].
  - pose proof (count_failed_nonneg rest) as Hpos.
    destruct (passed t) eqn:Ht; split.
    + intros H u [<- | Hu]; [assumption |]. apply IH; [lia | assumption].
    + intros H. cbn. apply IH. intros u Hu. apply H. now right.
    + intros H. lia.
    + intros H. specialize (H t (or_introl eq_refl)). congruence.
Qed.

Lemma count_failed_pos (ts : list test_fn) :
  count_failed ts <> 0 <-> exists t, In t ts /\ passed t = false.
Proof.
  induction ts as [| t rest IH]; cbn [count_failed].
  - split; [congruence | intros (t & [] & _)].
  - pose proof (count_failed_nonneg rest) as Hpos.
    destruct (passed t) eqn:Ht; split.
    + intros H. destruct IH as [IH _].
      destruct IH as (u & Hu & Hf); [lia |]. exists u. split; [now right | assumption].
    + intros (u & [<- | Hu] & Hf); [congruence |].
      destruct IH as [_ IH]. cut (count_failed rest <> 0); [lia |]. apply IH. now exists u.
    + intros _. exists t. split; [now left | assumption].
    + intros _. lia.
Qed.


Lemma print_failures (line : string) (g : state) :
  failures (print line g) = failures g.
Proof. reflexivity. Qed.

Lemma print_total_tests (line : string) (g : state) :
  total_tests (print line g) = total_tests g.
Proof. reflexivity. Qed.

Lemma print_stdout (line : string) (g : state) :
  stdout (print line g) = (stdout g ++ [line])%list.
Proof. reflexivity. Qed.

Lemma basic_tests_length (G : Engine) : length (basic_tests G) = 8%nat.
Proof. reflexivity. Qed.

Lemma edge_tests_length (G : Engine) : length (edge_tests G) = 60%nat.
Proof. reflexivity. Qed.

Lemma all_tests_length (G : Engine) :
  Z.of_nat (length (basic_tests G ++ edge_tests G)) = 68.
Proof.
  rewrite length_app, basic_tests_length, edge_tests_length. reflexivity.
Qed.

(** Rewriting with these pushes the projections of the globals through
    [print]. *)
Create Rewrite HintDb runner.
#[local] Hint Rewrite print_failures print_total_tests print_stdout
  basic_tests_length edge_tests_length : runner.

Lemma state_ext (g h : state) :
  failures g = failures h ->
  total_tests g = total_tests h ->
  stdout g = stdout h ->
  g = h.
Proof.
  destruct g, h; cbn [failures total_tests stdout]; intros; subst; reflexivity.
Qed.

(** [main] in closed form, from any starting globals, when no test raises
    outside [Exception]: the state it leaves and the [SystemExit] it ends
    in. *)
Lemma main_closed_form (G : Engine) (percent_1f : Z -> Z -> string) (g : state) :
  forallb raises_only_Exception (basic_tests G ++ edge_tests G) = true ->
  let failed := failures g + count_failed (basic_tests G ++ edge_tests G) in
  main G percent_1f g =
    (Raise (SystemExit (if failed =? 0 then 0 else 1)),
     {| failures := failed;
        total_tests := total_tests g + 68;
        stdout := stdout g ++ banner ++ flat_map report (basic_tests G)
                    ++ interlude ++ flat_map report (edge_tests G)
                    ++ summary percent_1f (total_tests g + 68) failed |}).
Proof.
  intros Hall. rewrite forallb_app in Hall. apply andb_prop in Hall as [Hb He].
  cbv zeta. rewrite count_failed_app.
  unfold main. cbv zeta.
  rewrite (run_tests_sees_all_through _ _ Hb). cbv iota beta.
  rewrite (run_tests_sees_all_through _ _ He). cbv iota beta.
  unfold sys_exit.
  autorewrite with runner. cbn [failures total_tests stdout].
  autorewrite with runner.
  set (fb := count_failed (basic_tests G)).
  set (fe := count_failed (edge_tests G)).
  replace (failures g + fb + fe) with (failures g + (fb + fe)) by lia.
  replace (total_tests g + Z.of_nat 8 + Z.of_nat 60) with (total_tests g + 68) by lia.
  unfold summary.
  destruct (failures g + (fb + fe) =? 0) eqn:Hz; cbv iota;
    autorewrite with runner; cbn [failures total_tests stdout];
    autorewrite with runner; rewrite ?Hz; apply f_equal;
    (apply state_ext; autorewrite with runner;
     cbn [failures total_tests stdout]; autorewrite with runner;
     [ reflexivity | reflexivity
     | unfold banner, interlude; rewrite <- !app_assoc; cbn [app]; reflexivity ]).
Qed.

Lemma report_starts_with_verdict (ts : list test_fn) :
  forallb raises_only_Exception ts = true ->
  flat_map report ts = flat_map (fun t => verdict t :: tl (report t)) ts.
Proof.
  induction ts as [| t rest IH]; cbn [forallb flat_map]; [reflexivity |].
  intros H. apply andb_prop in H as [Ht Hrest]. rewrite (IH Hrest). f_equal.
  unfold raises_only_Exception, escapes in Ht. unfold report, verdict, passed.
  destruct (body t) as [u | e]; [reflexivity |].
  destruct (is_Exception e); [reflexivity | discriminate].
Qed.

(** C10, with the proviso the code needs.  When no test raises an
    exception outside [Exception], [main] runs every test of its two lists
    whatever the earlier tests did, since [run_test] turns an exception of
    that class into a FAIL report and a count.  Started on the freshly
    loaded module, [total_tests] ends as the number of tests in the two
    lists (68) and [failures] as the number of tests that raised; after
    the banner the runner has printed, for each basic test in list order
    and then, after the interlude, for each edge test, its PASS line or
    its FAIL line with the lines that detail the failure.  [main] ends in
    [sys.exit(0)] exactly when every test passed and in [sys.exit(1)]
    exactly when some test failed. *)
Theorem main_runs_every_test_and_sets_exit_status
  (G : Engine) (percent_1f : Z -> Z -> string) :
  let tests := (basic_tests G ++ edge_tests G)%list in
  forallb raises_only_Exception tests = true ->
  let outcome := fst (script G percent_1f) in
  let g := snd (script G percent_1f) in
  total_tests g = Z.of_nat (length tests) /\
  total_tests g = 68 /\
  failures g = count_failed tests /\
  (exists (detail : test_fn -> list string) (summary : list string),
     stdout g =
       (banner ++ flat_map (fun t => verdict t :: detail t) (basic_tests G)
          ++ interlude ++ flat_map (fun t => verdict t :: detail t) (edge_tests G)
          ++ summary)%list) /\
  (outcome = Raise (SystemExit 0) <-> forall t, In t tests -> passed t = true) /\
  (outcome = Raise (SystemExit 1) <-> exists t, In t tests /\ passed t = false).
Proof.
  cbv zeta. intros Hall. unfold script.
  rewrite (main_closed_form G percent_1f initial Hall). cbv zeta.
  cbn [fst snd failures total_tests stdout initial app].
  rewrite !Z.add_0_l.
  set (tests := (basic_tests G ++ edge_tests G)%list).
  split; [| split; [| split; [| split; [| split]]]].
  - unfold tests. now rewrite all_tests_length.
  - reflexivity.
  - reflexivity.
  - unfold tests in Hall. rewrite forallb_app in Hall.
    apply andb_prop in Hall as [Hb He].
    exists (fun t => tl (report t)). eexists.
    rewrite <- (report_starts_with_verdict _ Hb), <- (report_starts_with_verdict _ He).
    reflexivity.
  - rewrite <- count_failed_zero.
    destruct (Z.eqb_spec (count_failed tests) 0); split; congruence.
  - rewrite <- count_failed_pos.
    destruct (Z.eqb_spec (count_failed tests) 0); split; congruence.
Qed.

(** C10 at the sample engine, none of whose tests raises outside
    [Exception]: the eight basic tests fail and the run still goes on
    through the edge tests, 23 of which pass (45 failures). *)
Lemma main_on_sample_engine :
  forallb raises_only_Exception
    (basic_tests sample_engine ++ edge_tests sample_engine) = true /\
  total_tests (snd (script sample_engine (fun _ _ => "33.8"))) = 68 /\
  failures (snd (script sample_engine (fun _ _ => "33.8"))) = 45.
Proof.
  assert (H : forallb raises_only_Exception
                (basic_tests sample_engine ++ edge_tests sample_engine) = true)
    by (vm_compute; reflexivity).
  split; [exact H |].
  pose proof (main_runs_every_test_and_sets_exit_status
                sample_engine (fun _ _ => "33.8") H) as T.
  cbv zeta in T. destruct T as (_ & Ht & Hf & _).
  split; [exact Ht |]. rewrite Hf. vm_compute. reflexivity.
Defined.

(** C10 as stated fails.  With an engine whose [make_empty_board] calls
    [sys.exit(0)] the first test raises [SystemExit], which [run_test]
    does not catch: the run ends there, with one test counted out of 68,
    no report printed and no failure counted, and the process exits with
    status 0 although no test passed. *)
Lemma run_ends_when_a_test_calls_sys_exit :
  fst (script exiting_engine (fun _ _ => "0.0")) = Raise (SystemExit 0) /\
  total_tests (snd (script exiting_engine (fun _ _ => "0.0"))) = 1 /\
  failures (snd (script exiting_engine (fun _ _ => "0.0"))) = 0 /\
  stdout (snd (script exiting_engine (fun _ _ => "0.0"))) = banner /\
  Forall (fun t => passed t = false)
    (basic_tests exiting_engine ++ edge_tests exiting_engine).
Proof.
  split; [vm_compute; reflexivity |].
  split; [vm_compute; reflexivity |].
  split; [vm_compute; reflexivity |].
  split; [vm_compute; reflexivity |].
  repeat (apply Forall_cons; [reflexivity |]). apply Forall_nil.
Qed.

(** On the sample engine the eight basic tests fail and the run still goes
    on through the edge tests, 23 of which pass: 45 failures, status 1. *)
Example script_on_sample_engine (percent_1f : Z -> Z -> string) :
  fst (script sample_engine percent_1f) = Raise (SystemExit 1) /\
  failures (snd (script sample_engine percent_1f)) = 45 /\
  total_tests (snd (script sample_engine percent_1f)) = 68 /\
  count_failed (basic_tests sample_engine) = 8 /\
  count_failed (edge_tests sample_engine) = 37.
Proof.
  repeat split; vm_compute; reflexivity.
Qed.

(** A failed test does not keep the next one from running. *)
Example run_goes_on_after_a_failure :
  stdout (snd (run_tests
            [def "test_detect_row_entire_row_filled"
               (test_detect_row_entire_row_filled sample_engine);
             def "test_blocked_by_same_color"
               (test_blocked_by_same_color sample_engine)] initial)) =
    ["✗ FAIL: test_detect_row_entire_row_filled";
     "  └─ 8 stones in a row must contain at least one 5-sequence";
     "✓ PASS: test_blocked_by_same_color"].
Proof.
  vm_compute. reflexivity.
Qed.

(** ** The placeholder engine *)

(** C1: each of the ten functions of [gomoku.py] raises
    [NotImplementedError] for every argument list, whatever the board,
    coordinates, direction, length or color. *)
Theorem placeholder_functions_all_raise :
  (forall size, gomoku.make_empty_board size
     = Raise (NotImplementedError "Replace this file with your gomoku.py")) /\
  (forall b y x d_y d_x len col, fst (gomoku.put_seq_on_board b y x d_y d_x len col)
     = Raise (NotImplementedError "Replace this file with your gomoku.py")) /\
  (forall b, fst (gomoku.is_empty b)
     = Raise (NotImplementedError "Replace this file with your gomoku.py")) /\
  (forall b y_end x_end len d_y d_x, fst (gomoku.is_bounded b y_end x_end len d_y d_x)
     = Raise (NotImplementedError "Replace this file with your gomoku.py")) /\
  (forall b col y_start x_start len d_y d_x,
     fst (gomoku.detect_row b col y_start x_start len d_y d_x)
     = Raise (NotImplementedError "Replace this file with your gomoku.py")) /\
  (forall b col len, fst (gomoku.detect_rows b col len)
     = Raise (NotImplementedError "Replace this file with your gomoku.py")) /\
  (forall b, fst (gomoku.score b)
     = Raise (NotImplementedError "Replace this file with your gomoku.py")) /\
  (forall b, fst (gomoku.search_max b)
     = Raise (NotImplementedError "Replace this file with your gomoku.py")) /\
  (forall b, fst (gomoku.is_win b)
     = Raise (NotImplementedError "Replace this file with your gomoku.py")) /\
  (forall b, fst (gomoku.print_board b)
     = Raise (NotImplementedError "Replace this file with your gomoku.py")).
Proof.
  repeat split; intros; reflexivity.
Qed.

(** With the placeholder installed every test of the two lists stops at
    its first engine call. *)
Lemma placeholder_tests_all_unimplemented :
  Forall (fun t => body t = unimplemented)
    (basic_tests placeholder ++ edge_tests placeholder).
Proof.
  repeat (apply Forall_cons; [reflexivity |]). apply Forall_nil.
Qed.

(** The run of this repository as it stands: 68 tests, 68 failures, exit
    status 1. *)
Lemma script_on_placeholder (percent_1f : Z -> Z -> string) :
  fst (script placeholder percent_1f) = Raise (SystemExit 1) /\
  failures (snd (script placeholder percent_1f)) = 68 /\
  total_tests (snd (script placeholder percent_1f)) = 68.
Proof.
  split; [| split]; vm_compute; reflexivity.
Qed.

(** *** What the engine functions do on the boards of the tests *)

(** C2 on the code.  On the board of [test_blocked_by_same_color], a
    maximal black run of four, the query at length 3 returns no tally, and
    so does the query at length 5 on the board of
    [test_detect_row_entire_row_filled], a maximal black run of eight:
    [detect_rows] and [detect_row] raise [NotImplementedError].  The two
    tests fail with that error, raised by their first engine call. *)
Theorem run_scanner_raises_on_the_test_boards :
  gomoku.detect_rows run4_board "b" 3 = (unimplemented, run4_board) /\
  gomoku.detect_row run4_board "b" 3 0 3 0 1 = (unimplemented, run4_board) /\
  gomoku.detect_rows run8_board "b" 5 = (unimplemented, run8_board) /\
  gomoku.detect_row run8_board "b" 0 0 5 0 1 = (unimplemented, run8_board) /\
  test_blocked_by_same_color placeholder = unimplemented /\
  test_detect_row_entire_row_filled placeholder = unimplemented.
Proof.
  repeat split.
Qed.

(** C3 on the code.  On the board of
    [test_both_players_have_five_simultaneously], five black stones on row
    0 and five white stones on row 1, on the board with five black stones
    only, on the full board and on the empty board [is_win] returns no
    verdict: it raises [NotImplementedError].  The test fails with that
    error, raised by its first engine call. *)
Theorem outcome_detector_raises_on_the_test_boards :
  gomoku.is_win both_five_board = (unimplemented, both_five_board) /\
  gomoku.is_win black_five_board = (unimplemented, black_five_board) /\
  gomoku.is_win checkerboard8 = (unimplemented, checkerboard8) /\
  gomoku.is_win empty8 = (unimplemented, empty8) /\
  test_both_players_have_five_simultaneously placeholder = unimplemented.
Proof.
  repeat split.
Qed.

(** C4 on the code.  On the empty board of [test_score_empty_board], on
    the board of [test_score_black_winning] (five black stones in a row)
    and on the board of [test_score_white_winning] (five white stones in a
    row) [score] returns no number: it raises [NotImplementedError].  The
    three tests fail with that error, raised by their first engine call. *)
Theorem evaluator_raises_on_the_test_boards :
  gomoku.score empty8 = (unimplemented, empty8) /\
  gomoku.score black_five_board = (unimplemented, black_five_board) /\
  gomoku.score white_five_board = (unimplemented, white_five_board) /\
  test_score_empty_board placeholder = unimplemented /\
  test_score_black_winning placeholder = unimplemented /\
  test_score_white_winning placeholder = unimplemented.
Proof.
  repeat split.
Qed.

(** C5 on the code.  For the vertical white run of three that ends at
    (3,5) with both flanks in range and empty (the first board of
    [test_is_bounded_open_semi_closed]) and for the diagonal black run
    that ends at (2,7) with both flanks off the board (the board of
    [test_diagonal_from_top_edge_to_right_edge]) [is_bounded] returns no
    class: it raises [NotImplementedError].  The two tests fail with that
    error, raised by their first engine call. *)
Theorem classifier_raises_on_the_test_boards :
  gomoku.is_bounded white_three_board 3 5 3 1 0 = (unimplemented, white_three_board) /\
  gomoku.is_bounded edge_diagonal_board 2 7 3 1 1
    = (unimplemented, edge_diagonal_board) /\
  test_is_bounded_open_semi_closed placeholder = unimplemented /\
  test_diagonal_from_top_edge_to_right_edge placeholder = unimplemented.
Proof.
  repeat split.
Qed.

(** C6 on the code.  On the empty board of [test_search_max_empty_board],
    on the board without an empty cell of [test_search_max_full_board] and
    on the board of [test_search_max_takes_winning_move] [search_max]
    returns neither [(None, None)] nor a coordinate: it raises
    [NotImplementedError].  The three tests fail with that error, raised
    by their first engine call. *)
Theorem move_selector_raises_on_the_test_boards :
  gomoku.search_max empty8 = (unimplemented, empty8) /\
  gomoku.search_max full_board = (unimplemented, full_board) /\
  gomoku.search_max black_four_board = (unimplemented, black_four_board) /\
  test_search_max_empty_board placeholder = unimplemented /\
  test_search_max_full_board placeholder = unimplemented /\
  test_search_max_takes_winning_move placeholder = unimplemented.
Proof.
  repeat split.
Qed.


(** C8 on the code.  For the board with an open black run of three and
    the board where the same run has a white stone on one flank (the two
    boards of [test_score_semi_open_less_than_open]) [score] returns no
    number, so there are no two scores with the first above the second;
    the test fails with [NotImplementedError], raised by its first engine
    call. *)
Theorem open_and_semiopen_boards_are_not_scored :
  gomoku.score open_three_board = (unimplemented, open_three_board) /\
  gomoku.score semiopen_three_board = (unimplemented, semiopen_three_board) /\
  ~ (exists s_open s_semi : Z,
       fst (gomoku.score open_three_board) = Ok s_open /\
       fst (gomoku.score semiopen_three_board) = Ok s_semi /\
       s_open > s_semi) /\
  test_score_semi_open_less_than_open placeholder = unimplemented.
Proof.
  split; [reflexivity |]. split; [reflexivity |].
  split; [| reflexivity].
  intros (s_open & s_semi & H & _). discriminate H.
Qed.

(** C9 on the code.  With an in-range coordinate, a direction of the four
    orientations and a length that is not negative, on the board with a
    vertical white run of three, none of the six core functions returns a
    value: each call raises [NotImplementedError]. *)
Theorem core_functions_raise_on_well_typed_input :
  ~ returns (gomoku.is_bounded white_three_board 3 5 3 1 0) /\
  ~ returns (gomoku.detect_row white_three_board "w" 0 5 3 1 0) /\
  ~ returns (gomoku.detect_rows white_three_board "w" 3) /\
  ~ returns (gomoku.score white_three_board) /\
  ~ returns (gomoku.search_max white_three_board) /\
  ~ returns (gomoku.is_win white_three_board) /\
  gomoku.is_bounded white_three_board 3 5 3 1 0 = (unimplemented, white_three_board).
Proof.
  repeat match goal with
         | |- _ /\ _ => split
         | |- _ = _ => reflexivity
         | |- ~ returns _ => intros [v Hv]; discriminate Hv
         end.
Qed.

(** ** What the tests ask of an engine installed in place of the placeholder *)

Section AnyEngine.

Variable G : Engine.


(** X12: [test_detect_row_entire_row_filled] fails for every engine whose
    [detect_rows], queried at length 5 for the board the test built (eight
    stones placed along row 0), answers [(0, 0)] or any two counts with a
    sum below 1: the test asks for at least one match in a row of eight
    stones. *)
Lemma entire_row_filled_rejects_zero (b0 b1 b2 : board) (open_all semi_all : Z) :
  make_empty_board G 8 = Ok b0 ->
  put_seq_on_board G b0 0 0 0 1 8 "b" = (Ok tt, b1) ->
  detect_rows G b1 "b" 5 = (Ok (open_all, semi_all), b2) ->
  open_all + semi_all < 1 ->
  test_detect_row_entire_row_filled G =
    Raise (AssertionError "8 stones in a row must contain at least one 5-sequence").
Proof.
  intros H0 H1 H2 Hsum. unfold test_detect_row_entire_row_filled.
  rewrite H0. cbn [bind]. unfold exec, call.
  rewrite H1. cbn [fst snd bind]. rewrite H2. cbn [fst snd bind].
  unfold assert_true.
  replace (open_all + semi_all >=? 1) with false
    by (symmetry; rewrite Z.geb_leb; apply Z.leb_gt; lia).
  reflexivity.
Qed.

(** X13: [test_both_players_have_five_simultaneously] accepts the white-won
    verdict as well as the black-won one. *)
Lemma both_five_accepts_either_winner (b0 b1 b2 b3 : board) (verdict : string) :
  make_empty_board G 8 = Ok b0 ->
  put_seq_on_board G b0 0 0 0 1 5 "b" = (Ok tt, b1) ->
  put_seq_on_board G b1 1 0 0 1 5 "w" = (Ok tt, b2) ->
  is_win G b2 = (Ok verdict, b3) ->
  verdict = "Black won" \/ verdict = "White won" ->
  test_both_players_have_five_simultaneously G = Ok tt.
Proof.
  intros H0 H1 H2 H3 Hv. unfold test_both_players_have_five_simultaneously.
  rewrite H0. cbn [bind]. unfold exec, call.
  rewrite H1. cbn [fst snd bind]. rewrite H2. cbn [fst snd bind].
  rewrite H3. cbn [fst snd bind].
  destruct Hv as [-> | ->]; reflexivity.
Qed.

End AnyEngine.


(** The engine that places the stones fills row 0 with eight black stones
    and answers [(0, 0)] for it: the test fails. *)
Example placing_engine_entire_row_filled :
  put_seq_on_board placing_engine (blank_board 8) 0 0 0 1 8 "b" = (Ok tt, run8_board) /\
  test_detect_row_entire_row_filled placing_engine =
    Raise (AssertionError "8 stones in a row must contain at least one 5-sequence").
Proof.
  assert (H : put_seq_on_board placing_engine (blank_board 8) 0 0 0 1 8 "b"
              = (Ok tt, run8_board)) by (vm_compute; reflexivity).
  split; [exact H |].
  apply (entire_row_filled_rejects_zero placing_engine
           (blank_board 8) run8_board run8_board 0 0);
    [reflexivity | exact H | reflexivity | lia].
Defined.

Example sample_engine_both_five :
  test_both_players_have_five_simultaneously sample_engine = Ok tt.
Proof.
  apply (both_five_accepts_either_winner sample_engine
           (blank_board 8) (blank_board 8) (blank_board 8) (blank_board 8)
           "Black won"); try reflexivity.
  now left.
Defined.

(** * Further properties of the runners *)

(** ** run_all_tests.py: the counters *)



(** ** run_all_tests.py: an exception that [run_test] does not catch *)








(** ** test_gomoku_runner.py and test_gomoku_edge_cases.py *)







Lemma edge_case_tests_are_the_edge_tests (G : Engine) :
  test_gomoku_edge_cases.tests G = edge_tests G.
Proof. reflexivity. Qed.







(** ** test_gomoku.py against test_gomoku_runner.py *)

Lemma is_ok_bind_same {A : Type} (c : result A) (k1 k2 : A -> result unit) :
  (forall a, is_ok (k1 a) = is_ok (k2 a)) ->
  is_ok (bind c k1) = is_ok (bind c k2).
Proof.
  intros H. destruct c as [a | e]; cbn [bind is_ok]; [apply H | reflexivity].
Qed.

Lemma is_ok_assert_then (cond : bool) (msg : option string)
  (k1 k2 : unit -> result unit) :
  is_ok (k1 tt) = is_ok (k2 tt) ->
  is_ok (bind (test_gomoku.assert_ cond) k1)
    = is_ok (bind (run_all_tests.assert_true cond msg) k2).
Proof.
  intros H. unfold test_gomoku.assert_, run_all_tests.assert_true.
  destruct cond; cbn [negb bind is_ok]; [exact H | reflexivity].
Qed.

Lemma is_ok_assert_last (cond : bool) (msg : option string) :
  is_ok (test_gomoku.assert_ cond) = is_ok (run_all_tests.assert_true cond msg).
Proof.
  unfold test_gomoku.assert_, run_all_tests.assert_true.
  destruct cond; reflexivity.
Qed.

(** X7: the pytest suite and the lightweight runner ask the same of the
    engine calls.  For seven of the eight tests (all but
    [test_print_board_output], which reads the captured output in two
    different ways), and for every installed engine whose answers depend
    on the arguments of a call alone, the test of test_gomoku.py, written
    with [assert], returns normally exactly when the test of the same name
    in test_gomoku_runner.py, written with [assert_true], does. *)
Theorem pytest_tests_agree_with_runner_tests (G : Engine) :
  Forall2 (fun pytest_test runner_test => is_ok pytest_test = is_ok runner_test)
    [test_gomoku.test_make_and_is_empty G;
     test_gomoku.test_put_seq_and_detects_vertical_open G;
     test_gomoku.test_is_bounded_open_semi_closed G;
     test_gomoku.test_detect_row_horizontal_and_diagonal G;
     test_gomoku.test_score_and_win_conditions G;
     test_gomoku.test_search_max_picks_winning_move_and_none_on_empty G;
     test_gomoku.test_continue_playing_and_draw G]
    [test_gomoku_runner.test_make_and_is_empty G;
     test_gomoku_runner.test_put_seq_and_detects_vertical_open G;
     test_gomoku_runner.test_is_bounded_open_semi_closed G;
     test_gomoku_runner.test_detect_row_horizontal_and_diagonal G;
     test_gomoku_runner.test_score_and_win_conditions G;
     test_gomoku_runner.test_search_max_picks_winning_move_and_none_on_empty G;
     test_gomoku_runner.test_continue_playing_and_draw G].
Proof.
  repeat apply Forall2_cons; try apply Forall2_nil;
    unfold
      test_gomoku_runner.test_make_and_is_empty,
      test_gomoku_runner.test_put_seq_and_detects_vertical_open,
      test_gomoku_runner.test_is_bounded_open_semi_closed,
      test_gomoku_runner.test_detect_row_horizontal_and_diagonal,
      test_gomoku_runner.test_score_and_win_conditions,
      test_gomoku_runner.test_search_max_picks_winning_move_and_none_on_empty,
      test_gomoku_runner.test_continue_playing_and_draw,
      test_gomoku_runner.assert_true;
    fold run_all_tests.assert_true;
    unfold
      run_all_tests.test_make_and_is_empty,
      run_all_tests.test_put_seq_and_detects_vertical_open,
      run_all_tests.test_is_bounded_open_semi_closed,
      run_all_tests.test_detect_row_horizontal_and_diagonal,
      run_all_tests.test_score_and_win_conditions,
      run_all_tests.test_search_max_picks_winning_move_and_none_on_empty,
      test_gomoku.test_make_and_is_empty,
      test_gomoku.test_put_seq_and_detects_vertical_open,
      test_gomoku.test_is_bounded_open_semi_closed,
      test_gomoku.test_detect_row_horizontal_and_diagonal,
      test_gomoku.test_score_and_win_conditions,
      test_gomoku.test_search_max_picks_winning_move_and_none_on_empty,
      test_gomoku.test_continue_playing_and_draw;
    repeat first
      [ apply is_ok_assert_last
      | apply is_ok_assert_then
      | apply is_ok_bind_same; intros ?;
        repeat match goal with
               | x : (_ * _)%type |- _ => destruct x
               end ].
Qed.

(** ** The checkerboard loops of the draw tests *)

(** *** Subscripts at positions counted from the front *)

Lemma norm_index_nat (len k : nat) :
  norm_index len (Z.of_nat k) = if (k <? len)%nat then Some k else None.
Proof.
  unfold norm_index. cbv zeta.
  destruct (Nat.ltb_spec k len) as [Hlt | Hge].
  - replace (0 <=? Z.of_nat k) with true by (symmetry; apply Z.leb_le; lia).
    replace (Z.of_nat k <? Z.of_nat len) with true by (symmetry; apply Z.ltb_lt; lia).
    cbn [andb]. now rewrite Nat2Z.id.
  - replace (Z.of_nat k <? Z.of_nat len) with false by (symmetry; apply Z.ltb_ge; lia).
    rewrite andb_false_r.
    replace (Z.of_nat k <? 0) with false by (symmetry; apply Z.ltb_ge; lia).
    now rewrite andb_false_r.
Qed.

Lemma update_length {A : Type} (l : list A) (k : nat) (v : A) :
  length (update l k v) = length l.
Proof.
  revert k. induction l as [| x tl IH]; intros [| k]; cbn [update length];
    try reflexivity. now rewrite IH.
Qed.

Lemma nth_error_update_same {A : Type} (l : list A) (k : nat) (v : A) :
  (k < length l)%nat -> nth_error (update l k v) k = Some v.
Proof.
  revert k. induction l as [| x tl IH]; intros [| k] Hk; cbn [length] in Hk;
    cbn [update nth_error]; try lia; [reflexivity | apply IH; lia].
Qed.

Lemma nth_error_update_other {A : Type} (l : list A) (k k' : nat) (v : A) :
  k <> k' -> nth_error (update l k v) k' = nth_error l k'.
Proof.
  revert k k'. induction l as [| x tl IH]; intros [| k] [| k'] Hne;
    cbn [update nth_error]; try reflexivity; try congruence.
  apply IH. congruence.
Qed.

Lemma update_update {A : Type} (l : list A) (k : nat) (v w : A) :
  update (update l k v) k w = update l k w.
Proof.
  revert k. induction l as [| x tl IH]; intros [| k]; cbn [update];
    try reflexivity. now rewrite IH.
Qed.

Lemma update_same {A : Type} (l : list A) (k : nat) (v : A) :
  nth_error l k = Some v -> update l k v = l.
Proof.
  revert k. induction l as [| x tl IH]; intros [| k] H; cbn [nth_error] in H;
    try discriminate; cbn [update].
  - congruence.
  - f_equal. now apply IH.
Qed.

Lemma getitem_nat {A : Type} (l : list A) (k : nat) :
  getitem l (Z.of_nat k) =
    match nth_error l k with
    | Some x => Ok x
    | None => Raise (IndexError "list index out of range")
    end.
Proof.
  unfold getitem. rewrite norm_index_nat.
  destruct (Nat.ltb_spec k (length l)) as [Hlt | Hge]; [reflexivity |].
  now rewrite (proj2 (nth_error_None l k) Hge).
Qed.

Lemma setitem_nat {A : Type} (l : list A) (k : nat) (v : A) :
  setitem l (Z.of_nat k) v =
    if (k <? length l)%nat then Ok (update l k v)
    else Raise (IndexError "list assignment index out of range").
Proof.
  unfold setitem. rewrite norm_index_nat.
  now destruct (k <? length l)%nat.
Qed.

Lemma setcell_nat (b : board) (i j : nat) (v : string) :
  setcell b (Z.of_nat i) (Z.of_nat j) v =
    match nth_error b i with
    | Some r =>
        if (j <? length (cells r))%nat
        then Ok (store (ident r) (update (cells r) j v) b)
        else Raise (IndexError "list assignment index out of range")
    | None => Raise (IndexError "list index out of range")
    end.
Proof.
  unfold setcell. rewrite getitem_nat.
  destruct (nth_error b i) as [r |] eqn:Hrow; cbn [bind]; [| reflexivity].
  rewrite setitem_nat. now destruct (j <? length (cells r))%nat.
Qed.

Lemma getcell_nat (b : board) (i j : nat) :
  getcell b (Z.of_nat i) (Z.of_nat j) =
    match nth_error b i with
    | Some r =>
        match nth_error (cells r) j with
        | Some c => Ok c
        | None => Raise (IndexError "list index out of range")
        end
    | None => Raise (IndexError "list index out of range")
    end.
Proof.
  unfold getcell. rewrite getitem_nat.
  destruct (nth_error b i) as [r |]; cbn [bind]; [| reflexivity].
  apply getitem_nat.
Qed.

Lemma range_from_zero (n : Z) :
  range 0 n = map Z.of_nat (seq 0 (Z.to_nat n)).
Proof.
  unfold range. rewrite Z.sub_0_r. apply map_ext. intros k. apply Z.add_0_l.
Qed.

(** *** Writing through a row that is an object of its own *)

Lemma store_absent (o : nat) (c : list string) (b : board) :
  existsb (Nat.eqb o) (map ident b) = false -> store o c b = b.
Proof.
  induction b as [| r tl IH]; cbn [map existsb store]; [reflexivity |].
  intros H. apply orb_false_elim in H as [Hr Htl].
  rewrite Nat.eqb_sym, Hr. f_equal. now apply IH.
Qed.

Lemma ident_in_rows (b : board) (i : nat) (r : row) :
  nth_error b i = Some r -> existsb (Nat.eqb (ident r)) (map ident b) = true.
Proof.
  revert i. induction b as [| x tl IH]; intros [| i] H; cbn [nth_error] in H;
    try discriminate; cbn [map existsb].
  - injection H as ->. now rewrite Nat.eqb_refl.
  - rewrite (IH i H). apply orb_true_r.
Qed.

(** When the rows are distinct objects, a write through [b[i]] shows
    under the subscript [i] only. *)
Lemma store_distinct (b : board) :
  forall (i : nat) (r : row) (c : list string),
    distinct_rows b = true ->
    nth_error b i = Some r ->
    store (ident r) c b = update b i {| ident := ident r; cells := c |}.
Proof.
  unfold distinct_rows.
  induction b as [| x tl IH]; intros [| i] r c Hd Hrow; cbn [nth_error] in Hrow;
    try discriminate; cbn [map all_distinct] in Hd;
    apply andb_prop in Hd as [Hx Htl]; apply negb_true_iff in Hx.
  - injection Hrow as ->. cbn [store map update]. rewrite Nat.eqb_refl.
    f_equal. now apply store_absent.
  - cbn [store map update].
    destruct (Nat.eqb_spec (ident x) (ident r)) as [Heq | Hne].
    + rewrite Heq, (ident_in_rows tl i r Hrow) in Hx. discriminate.
    + f_equal. now apply IH.
Qed.

Lemma update_ident (b : board) :
  forall (i : nat) (r : row) (c : list string),
    nth_error b i = Some r ->
    map ident (update b i {| ident := ident r; cells := c |}) = map ident b.
Proof.
  induction b as [| x tl IH]; intros [| i] r c Hrow; cbn [nth_error] in Hrow;
    try discriminate; cbn [update map ident].
  - now injection Hrow as ->.
  - f_equal. now apply IH.
Qed.

Lemma update_distinct (b : board) (i : nat) (r : row) (c : list string) :
  distinct_rows b = true ->
  nth_error b i = Some r ->
  distinct_rows (update b i {| ident := ident r; cells := c |}) = true.
Proof.
  unfold distinct_rows. intros Hd Hrow. now rewrite (update_ident b i r c Hrow).
Qed.

Lemma setcell_distinct (b : board) (i j : nat) (v : string) (r : row) :
  distinct_rows b = true ->
  nth_error b i = Some r ->
  setcell b (Z.of_nat i) (Z.of_nat j) v =
    if (j <? length (cells r))%nat
    then Ok (update b i {| ident := ident r; cells := update (cells r) j v |})
    else Raise (IndexError "list assignment index out of range").
Proof.
  intros Hd Hrow. rewrite setcell_nat, Hrow.
  destruct (j <? length (cells r))%nat; [| reflexivity].
  now rewrite (store_distinct b i r _ Hd Hrow).
Qed.

(** *** Painting a row and the rows of a board *)

Lemma paint_length (f : Z -> string) (m : nat) :
  forall (s : nat) (c : list string), length (paint f s m c) = length c.
Proof.
  induction m as [| m IH]; intros s c; cbn [paint]; [reflexivity |].
  now rewrite IH, update_length.
Qed.

Lemma nth_error_paint (f : Z -> string) (m : nat) :
  forall (s : nat) (c : list string) (k : nat),
    (s + m <= length c)%nat ->
    nth_error (paint f s m c) k =
      if ((s <=? k) && (k <? s + m))%nat then Some (f (Z.of_nat k))
      else nth_error c k.
Proof.
  induction m as [| m IH]; intros s c k Hlen; cbn [paint].
  - replace (k <? s + 0)%nat with (k <? s)%nat by (f_equal; lia).
    destruct (Nat.leb_spec s k), (Nat.ltb_spec k s); cbn [andb]; try reflexivity; lia.
  - rewrite IH by (rewrite update_length; lia).
    destruct (Nat.eq_dec s k) as [<- | Hne].
    + replace (S s <=? s)%nat with false by (symmetry; apply Nat.leb_gt; lia).
      replace (s <=? s)%nat with true by (symmetry; apply Nat.leb_le; lia).
      replace (s <? s + S m)%nat with true by (symmetry; apply Nat.ltb_lt; lia).
      cbn [andb]. apply nth_error_update_same. lia.
    + rewrite nth_error_update_other by assumption.
      replace (k <? S s + m)%nat with (k <? s + S m)%nat by (f_equal; lia).
      destruct (Nat.leb_spec (S s) k), (Nat.leb_spec s k); try reflexivity; lia.
Qed.

(** The inner loop on row [i] of a board with distinct rows: it paints
    cells [s .. s + m - 1] when the row is long enough and raises
    otherwise. *)
Lemma paint_loop (f : Z -> string) (i : nat) (m : nat) :
  forall (s : nat) (b : board) (r : row),
    distinct_rows b = true ->
    nth_error b i = Some r ->
    (s <= length (cells r))%nat ->
    for_each (map Z.of_nat (seq s m))
      (fun j b => setcell b (Z.of_nat i) j (f j)) b =
      if (s + m <=? length (cells r))%nat
      then Ok (update b i {| ident := ident r; cells := paint f s m (cells r) |})
      else Raise (IndexError "list assignment index out of range").
Proof.
  induction m as [| m IH]; intros s b r Hd Hrow Hs; cbn [seq map for_each paint].
  - replace (s + 0 <=? length (cells r))%nat with true
      by (symmetry; apply Nat.leb_le; lia).
    f_equal. symmetry. apply update_same. rewrite Hrow. now destruct r.
  - rewrite (setcell_distinct b i s _ r Hd Hrow).
    destruct (Nat.ltb_spec s (length (cells r))) as [Hlt | Hge]; cbn [bind].
    + assert (Hi : (i < length b)%nat) by (apply nth_error_Some; congruence).
      rewrite (IH (S s) _ {| ident := ident r;
                             cells := update (cells r) s (f (Z.of_nat s)) |})
        by first [ now apply update_distinct
                 | now apply nth_error_update_same
                 | cbn [cells]; rewrite update_length; lia ].
      cbn [ident cells]. rewrite update_length, update_update.
      replace (S s + m <=? length (cells r))%nat with (s + S m <=? length (cells r))%nat
        by (f_equal; lia).
      reflexivity.
    + replace (s + S m <=? length (cells r))%nat with false
        by (symmetry; apply Nat.leb_gt; lia).
      reflexivity.
Qed.

Lemma paint_loop_missing_row (f : Z -> string) (i m : nat) (b : board) :
  nth_error b i = None ->
  for_each (map Z.of_nat (seq 0 (S m)))
    (fun j b => setcell b (Z.of_nat i) j (f j)) b =
    Raise (IndexError "list index out of range").
Proof.
  intros Hrow. cbn [seq map for_each].
  change (Z.of_nat 0) with (Z.of_nat O).
  now rewrite setcell_nat, Hrow.
Qed.

Lemma rows_ok_update (n m : nat) :
  forall (s k : nat) (b : board) (r : row),
    (k < s)%nat -> rows_ok n s m (update b k r) = rows_ok n s m b.
Proof.
  induction m as [| m IH]; intros s k b r Hk; cbn [rows_ok]; [reflexivity |].
  rewrite nth_error_update_other by lia.
  destruct (nth_error b s); [| reflexivity].
  now rewrite IH by lia.
Qed.

Lemma rows_ok_row (n m : nat) :
  forall (s : nat) (b : board),
    rows_ok n s m b = true ->
    forall k, (s <= k < s + m)%nat ->
      exists r, nth_error b k = Some r /\ (n <= length (cells r))%nat.
Proof.
  induction m as [| m IH]; intros s b Hok k Hk; [lia |].
  cbn [rows_ok] in Hok.
  destruct (nth_error b s) as [r |] eqn:Hrow; [| discriminate].
  apply andb_prop in Hok as [Hlen Hrest].
  destruct (Nat.eq_dec k s) as [-> | Hne].
  - exists r. split; [assumption | now apply Nat.leb_le].
  - apply (IH (S s) b Hrest). lia.
Qed.

(** The outer loop over rows [s .. s + m - 1] of a board with distinct
    rows, each painted over its first [n] cells. *)
Lemma paint_rows_loop (n : nat) (m : nat) :
  (0 < n)%nat ->
  forall (s : nat) (b : board),
    distinct_rows b = true ->
    match
      for_each (map Z.of_nat (seq s m))
        (fun i b =>
           for_each (map Z.of_nat (seq 0 n))
             (fun j b => setcell b i j (checker i j)) b) b
    with
    | Ok b' =>
        rows_ok n s m b = true /\
        forall k,
          nth_error b' k =
            if ((s <=? k) && (k <? s + m))%nat
            then option_map (painted n k) (nth_error b k)
            else nth_error b k
    | Raise e => rows_ok n s m b = false /\ exists msg, e = IndexError msg
    end.
Proof.
  intros Hn. induction m as [| m IH]; intros s b Hd; cbn [seq map for_each rows_ok].
  - split; [reflexivity |]. intros k.
    replace (k <? s + 0)%nat with (k <? s)%nat by (f_equal; lia).
    destruct (Nat.leb_spec s k), (Nat.ltb_spec k s); cbn [andb]; try reflexivity; lia.
  - destruct (nth_error b s) as [r |] eqn:Hrow.
    + rewrite (paint_loop (checker (Z.of_nat s)) s n 0 b r Hd Hrow) by lia.
      cbn [Nat.add].
      destruct (Nat.leb_spec n (length (cells r))) as [Hlen | Hshort]; cbn [bind andb].
      * fold (painted n s r).
        specialize (IH (S s) (update b s (painted n s r))
                      (update_distinct b s r _ Hd Hrow)).
        rewrite rows_ok_update in IH by lia.
        destruct (for_each _ _ _) as [b' | e]; [| exact IH].
        destruct IH as [Hok Hcells]. split; [assumption |].
        intros k. rewrite Hcells.
        assert (Hs : (s < length b)%nat) by (apply nth_error_Some; congruence).
        destruct (Nat.eq_dec k s) as [-> | Hne].
        -- replace (S s <=? s)%nat with false by (symmetry; apply Nat.leb_gt; lia).
           replace (s <=? s)%nat with true by (symmetry; apply Nat.leb_le; lia).
           replace (s <? s + S m)%nat with true by (symmetry; apply Nat.ltb_lt; lia).
           cbn [andb]. rewrite nth_error_update_same by assumption.
           now rewrite Hrow.
        -- rewrite nth_error_update_other by congruence.
           replace (k <? S s + m)%nat with (k <? s + S m)%nat by (f_equal; lia).
           destruct (Nat.leb_spec (S s) k), (Nat.leb_spec s k); try reflexivity; lia.
      * split; [reflexivity | eexists; reflexivity].
    + destruct n as [| n']; [lia |].
      rewrite paint_loop_missing_row by assumption. cbn [bind].
      split; [reflexivity | eexists; reflexivity].
Qed.

Lemma fill_checkerboard_unfold (n : Z) (b : board) :
  fill_checkerboard n b =
    for_each (map Z.of_nat (seq 0 (Z.to_nat n)))
      (fun i b =>
         for_each (map Z.of_nat (seq 0 (Z.to_nat n)))
           (fun j b => setcell b i j (checker i j)) b) b.
Proof.
  unfold fill_checkerboard. rewrite range_from_zero. reflexivity.
Qed.

(** The loops in closed form, row by row, on a board with distinct rows. *)
Lemma fill_checkerboard_rows (n : Z) (b : board) :
  distinct_rows b = true ->
  match fill_checkerboard n b with
  | Ok b' =>
      big_enough n b = true /\
      forall k,
        nth_error b' k =
          if (k <? Z.to_nat n)%nat
          then option_map (painted (Z.to_nat n) k) (nth_error b k)
          else nth_error b k
  | Raise e => big_enough n b = false /\ exists msg, e = IndexError msg
  end.
Proof.
  intros Hd. rewrite fill_checkerboard_unfold. unfold big_enough.
  destruct (Z.to_nat n) as [| n'] eqn:Hn.
  - cbn [seq map for_each rows_ok]. split; [reflexivity |]. intros k. reflexivity.
  - pose proof (paint_rows_loop (S n') (S n') (Nat.lt_0_succ n') 0 b Hd) as H.
    destruct (for_each _ _ _) as [b' | e]; [| exact H].
    destruct H as [Hok Hcells]. split; [assumption |].
    intros k. rewrite Hcells. cbn [Nat.leb andb Nat.add]. reflexivity.
Qed.

Lemma fill_checkerboard_big_enough (n : Z) (b b' : board) :
  distinct_rows b = true ->
  fill_checkerboard n b = Ok b' ->
  forall k, (k < Z.to_nat n)%nat ->
    exists r, nth_error b k = Some r /\ (Z.to_nat n <= length (cells r))%nat.
Proof.
  intros Hd Hfill k Hk.
  pose proof (fill_checkerboard_rows n b Hd) as H. rewrite Hfill in H.
  destruct H as [Hbig _]. apply (rows_ok_row _ _ 0 b Hbig). lia.
Qed.

(** The cells of the corner after the loops. *)
Lemma fill_checkerboard_cells (n : Z) (b b' : board) :
  distinct_rows b = true ->
  fill_checkerboard n b = Ok b' ->
  forall i j, 0 <= i < n -> 0 <= j < n -> getcell b' i j = Ok (checker i j).
Proof.
  intros Hd Hfill i j Hi Hj.
  pose proof (fill_checkerboard_rows n b Hd) as H. rewrite Hfill in H.
  destruct H as [_ Hrows].
  rewrite <- (Z2Nat.id i), <- (Z2Nat.id j) by lia.
  rewrite getcell_nat, Hrows.
  assert (Hk : (Z.to_nat i < Z.to_nat n)%nat) by lia.
  rewrite (proj2 (Nat.ltb_lt _ _) Hk).
  destruct (fill_checkerboard_big_enough n b b' Hd Hfill _ Hk) as (r & -> & Hlen).
  cbn [option_map painted cells]. rewrite nth_error_paint by lia.
  replace ((0 <=? Z.to_nat j) && (Z.to_nat j <? 0 + Z.to_nat n))%nat with true
    by (symmetry; apply andb_true_intro; split;
        [apply Nat.leb_le | apply Nat.ltb_lt]; lia).
  reflexivity.
Qed.

(** X8: the checkerboard loops, for any size [n], on any board whose rows
    are distinct list objects.  When the board has an [n] by [n] corner
    the loops return; the board holds the same row objects, each of the
    length it had, with ['b'] at the cells of the corner with [i + j]
    even, ['w'] at the others, and every cell outside the corner as it
    was.  When the board has no such corner they raise [IndexError]. *)
Theorem fill_checkerboard_outcome (n : Z) (b : board) :
  distinct_rows b = true ->
  if big_enough n b
  then
    exists b' : board,
      fill_checkerboard n b = Ok b' /\
      map ident b' = map ident b /\
      map (fun r => length (cells r)) b' = map (fun r => length (cells r)) b /\
      (forall i j, 0 <= i < n -> 0 <= j < n ->
         getcell b' i j = Ok (if (i + j) mod 2 =? 0 then "b" else "w")) /\
      (forall i j, 0 <= i -> 0 <= j -> n <= i \/ n <= j ->
         getcell b' i j = getcell b i j)
  else
    exists msg : string, fill_checkerboard n b = Raise (IndexError msg).
Proof.
  intros Hd.
  pose proof (fill_checkerboard_rows n b Hd) as H.
  destruct (fill_checkerboard n b) as [b' |e] eqn:Hfill.
  - destruct H as [Hbig Hrows]. rewrite Hbig.
    exists b'. split; [reflexivity |].
    pose proof (fill_checkerboard_big_enough n b b' Hd Hfill) as Hrow.
    split; [| split; [| split]].
    + apply nth_error_ext. intros k. rewrite !nth_error_map, Hrows.
      destruct (Nat.ltb_spec k (Z.to_nat n)) as [Hk | Hk]; [| reflexivity].
      destruct (nth_error b k) as [r |]; cbn [option_map]; reflexivity.
    + apply nth_error_ext. intros k. rewrite !nth_error_map, Hrows.
      destruct (Nat.ltb_spec k (Z.to_nat n)) as [Hk | Hk]; [| reflexivity].
      destruct (nth_error b k) as [r |]; cbn [option_map painted cells]; [| reflexivity].
      now rewrite paint_length.
    + intros i j Hi Hj. apply (fill_checkerboard_cells n b b' Hd Hfill i j Hi Hj).
    + intros i j Hi Hj Hout.
      rewrite <- (Z2Nat.id i), <- (Z2Nat.id j) by lia.
      rewrite !getcell_nat, Hrows.
      destruct (Nat.ltb_spec (Z.to_nat i) (Z.to_nat n)) as [Hk | Hk]; [| reflexivity].
      destruct (Hrow _ Hk) as (r & -> & Hlen). cbn [option_map painted cells].
      rewrite nth_error_paint by lia.
      replace (Z.to_nat j <? 0 + Z.to_nat n)%nat with false
        by (symmetry; apply Nat.ltb_ge; lia).
      now rewrite andb_false_r.
  - destruct H as [Hbig [msg ->]]. rewrite Hbig. now exists msg.
Qed.

(** X8 at the blank 8 by 8 board and at a size the board is too small
    for. *)
Lemma fill_checkerboard_on_blank_board :
  distinct_rows (blank_board 8) = true /\
  (exists b' : board,
     fill_checkerboard 8 (blank_board 8) = Ok b' /\
     map ident b' = map ident (blank_board 8)) /\
  (exists msg : string, fill_checkerboard 9 (blank_board 8) = Raise (IndexError msg)).
Proof.
  assert (Hd : distinct_rows (blank_board 8) = true) by reflexivity.
  split; [exact Hd |]. split.
  - pose proof (fill_checkerboard_outcome 8 (blank_board 8) Hd) as T.
    change (big_enough 8 (blank_board 8)) with true in T. cbv iota in T.
    destruct T as (b' & Hfill & Hid & _). exists b'. split; assumption.
  - pose proof (fill_checkerboard_outcome 9 (blank_board 8) Hd) as T.
    change (big_enough 9 (blank_board 8)) with false in T. exact T.
Defined.

Lemma even_sum_shift (i j : Z) : (i + 1 + (j + 1)) mod 2 = (i + j) mod 2.
Proof.
  replace (i + 1 + (j + 1)) with (i + j + 1 * 2) by lia.
  apply Z_mod_plus_full.
Qed.

(** X9: on the board the checkerboard loops return for a board whose rows
    are distinct list objects, both families of diagonals are of one
    color: every cell of the main diagonal of the corner holds ['b'], and
    inside the corner a cell has the color of its lower-right neighbour
    and a cell's right neighbour has the color of its lower neighbour.
    Only along rows and columns do the colors alternate. *)
Theorem checkerboard_diagonals_are_one_color (n : Z) (b b' : board) :
  distinct_rows b = true ->
  fill_checkerboard n b = Ok b' ->
  (forall k, 0 <= k < n -> getcell b' k k = Ok "b") /\
  (forall i j, 0 <= i -> 0 <= j -> i + 1 < n -> j + 1 < n ->
     getcell b' (i + 1) (j + 1) = getcell b' i j /\
     getcell b' i (j + 1) = getcell b' (i + 1) j /\
     getcell b' i (j + 1) <> getcell b' i j /\
     getcell b' (i + 1) j <> getcell b' i j).
Proof.
  intros Hd Hfill.
  pose proof (fill_checkerboard_cells n b b' Hd Hfill) as Hcells.
  split.
  - intros k Hk. rewrite Hcells by lia. unfold checker.
    replace (k + k) with (k * 2) by lia. now rewrite Z_mod_mult.
  - intros i j Hi Hj Hin Hjn.
    rewrite !Hcells by lia. unfold checker.
    rewrite even_sum_shift.
    replace (i + (j + 1)) with (i + 1 + j) by lia.
    replace (i + 1 + j) with (i + j + 1) by lia.
    assert (Hflip : ((i + j + 1) mod 2 =? 0) = negb ((i + j) mod 2 =? 0)).
    { pose proof (Z.mod_pos_bound (i + j) 2 ltac:(lia)) as Hb1.
      pose proof (Z.mod_pos_bound (i + j + 1) 2 ltac:(lia)) as Hb2.
      pose proof (Z.div_mod (i + j) 2 ltac:(lia)) as Hd1.
      pose proof (Z.div_mod (i + j + 1) 2 ltac:(lia)) as Hd2.
      destruct (Z.eqb_spec ((i + j) mod 2) 0), (Z.eqb_spec ((i + j + 1) mod 2) 0);
        cbn [negb]; try reflexivity; lia. }
    rewrite Hflip.
    repeat split; try reflexivity;
      destruct ((i + j) mod 2 =? 0); cbn [negb]; discriminate.
Qed.

(** X9 at the blank 8 by 8 board: the last cell of the main diagonal, and
    cells (3,4) and (4,5). *)
Lemma checkerboard_diagonals_on_blank_board :
  distinct_rows (blank_board 8) = true /\
  fill_checkerboard 8 (blank_board 8) = Ok checkerboard8 /\
  getcell checkerboard8 7 7 = Ok "b" /\
  getcell checkerboard8 (3 + 1) (4 + 1) = getcell checkerboard8 3 4.
Proof.
  assert (Hd : distinct_rows (blank_board 8) = true) by reflexivity.
  assert (H : fill_checkerboard 8 (blank_board 8) = Ok checkerboard8)
    by (vm_compute; reflexivity).
  split; [exact Hd |]. split; [exact H |].
  pose proof (checkerboard_diagonals_are_one_color 8 (blank_board 8)
                checkerboard8 Hd H) as [Hmain Hdiag].
  split.
  - apply Hmain. lia.
  - exact (proj1 (Hdiag 3 4 ltac:(lia) ltac:(lia) ltac:(lia) ltac:(lia))).
Defined.

(** X10: [test_draw_on_full_board_no_winner] passes only if the installed
    [is_win] answers "Draw" for the board the checkerboard loops leave of
    the board of [make_empty_board(8)].  When the rows of that board are
    distinct list objects, it is a board without an empty cell in its 8 by
    8 corner on which eight black stones fill the main diagonal and seven
    white stones the diagonal beside it. *)
Theorem draw_test_asks_draw_despite_diagonals (G : Engine) :
  test_draw_on_full_board_no_winner G = Ok tt ->
  exists b0 b1 b2 : board,
    make_empty_board G 8 = Ok b0 /\
    fill_checkerboard 8 b0 = Ok b1 /\
    is_win G b1 = (Ok "Draw", b2) /\
    (distinct_rows b0 = true ->
     (forall i j, 0 <= i < 8 -> 0 <= j < 8 ->
        getcell b1 i j = Ok "b" \/ getcell b1 i j = Ok "w") /\
     (forall k, 0 <= k < 8 -> getcell b1 k k = Ok "b") /\
     (forall k, 0 <= k < 7 -> getcell b1 k (k + 1) = Ok "w")).
Proof.
  unfold test_draw_on_full_board_no_winner.
  destruct (make_empty_board G 8) as [b0 | e] eqn:H0; [| discriminate].
  cbn [bind].
  destruct (fill_checkerboard 8 b0) as [b1 | e] eqn:H1; [| discriminate].
  cbn [bind]. unfold call.
  destruct (is_win G b1) as [[w | e] b2] eqn:H2; [| discriminate].
  cbn [fst snd bind]. unfold assert_equal.
  destruct (py_eqb w "Draw") eqn:Hw; [| discriminate].
  intros _. cbn in Hw. apply String.eqb_eq in Hw. subst w.
  exists b0, b1, b2. split; [reflexivity |]. split; [exact H1 |].
  split; [exact H2 |]. intros Hd.
  pose proof (fill_checkerboard_cells 8 b0 b1 Hd H1) as Hcells.
  split; [| split]; intros k; intros; rewrite Hcells by lia; unfold checker.
  - destruct (_ =? 0); [now left | now right].
  - replace (k + k) with (k * 2) by lia. now rewrite Z_mod_mult.
  - replace (k + (k + 1)) with (1 + k * 2) by lia.
    now rewrite Z_mod_plus_full.
Qed.

(** X10 at the engine that answers "Draw" on every board. *)
Lemma draw_test_on_draw_engine :
  exists b0 b1 b2 : board,
    make_empty_board draw_engine 8 = Ok b0 /\
    fill_checkerboard 8 b0 = Ok b1 /\
    is_win draw_engine b1 = (Ok "Draw", b2) /\
    (distinct_rows b0 = true ->
     (forall i j, 0 <= i < 8 -> 0 <= j < 8 ->
        getcell b1 i j = Ok "b" \/ getcell b1 i j = Ok "w") /\
     (forall k, 0 <= k < 8 -> getcell b1 k k = Ok "b") /\
     (forall k, 0 <= k < 7 -> getcell b1 k (k + 1) = Ok "w")).
Proof.
  apply (draw_test_asks_draw_despite_diagonals draw_engine).
  vm_compute. reflexivity.
Defined.

(** *** The loops on a board whose rows are one list object *)

Lemma store_repeat (o : nat) (c c' : list string) (m : nat) :
  store o c' (repeat {| ident := o; cells := c |} m)
    = repeat {| ident := o; cells := c' |} m.
Proof.
  unfold store. induction m as [| m IH]; cbn [repeat map ident]; [reflexivity |].
  now rewrite Nat.eqb_refl, IH.
Qed.

(** The inner loop through any subscript of the board: every subscript
    shows the cells it paints. *)
Lemma paint_loop_shared (f : Z -> string) (o i m : nat) (k : nat) :
  (i < m)%nat ->
  forall (s : nat) (c : list string),
    (s + k <= length c)%nat ->
    for_each (map Z.of_nat (seq s k))
      (fun j b => setcell b (Z.of_nat i) j (f j))
      (repeat {| ident := o; cells := c |} m)
    = Ok (repeat {| ident := o; cells := paint f s k c |} m).
Proof.
  intros Hi. induction k as [| k IH]; intros s c Hlen; cbn [seq map for_each paint].
  - reflexivity.
  - rewrite setcell_nat, (nth_error_repeat _ Hi). cbn [cells ident].
    replace (s <? length c)%nat with true by (symmetry; apply Nat.ltb_lt; lia).
    cbn [bind]. rewrite store_repeat.
    apply IH. rewrite update_length. lia.
Qed.

(** The outer loop: after rows [s .. s + k - 1] have been written, the one
    row object holds the colors of the last of them. *)
Lemma paint_rows_loop_shared (n o m : nat) (k : nat) :
  forall (s : nat) (c : list string),
    (s + k <= m)%nat ->
    (n <= length c)%nat ->
    exists c' : list string,
      for_each (map Z.of_nat (seq s k))
        (fun i b =>
           for_each (map Z.of_nat (seq 0 n))
             (fun j b => setcell b i j (checker i j)) b)
        (repeat {| ident := o; cells := c |} m)
      = Ok (repeat {| ident := o; cells := c' |} m) /\
      length c' = length c /\
      forall j,
        nth_error c' j =
          if ((j <? n) && (0 <? k))%nat
          then Some (checker (Z.of_nat (s + k - 1)) (Z.of_nat j))
          else nth_error c j.
Proof.
  induction k as [| k IH]; intros s c Hs Hn; cbn [seq map for_each].
  - exists c. split; [reflexivity |]. split; [reflexivity |].
    intros j. now rewrite andb_false_r.
  - rewrite (paint_loop_shared (checker (Z.of_nat s)) o s m n) by lia.
    cbn [bind].
    destruct (IH (S s) (paint (checker (Z.of_nat s)) 0 n c)) as (c' & Hrun & Hlen & Hnth);
      [lia | rewrite paint_length; lia |].
    exists c'. split; [exact Hrun |]. split; [now rewrite Hlen, paint_length |].
    intros j. rewrite Hnth, nth_error_paint by lia.
    cbn [Nat.leb Nat.add andb].
    destruct (Nat.ltb_spec j n) as [Hj | Hj]; cbn [andb]; [| reflexivity].
    destruct k as [| k]; cbn [Nat.ltb Nat.leb].
    + do 3 f_equal. lia.
    + do 3 f_equal. lia.
Qed.

(** X18: the checkerboard loops on a board whose rows are all one list
    object, as [[[' '] * n] * n] builds it.  The loops return, and every
    row shows what was written last, the colors of row [n - 1]: under
    every row subscript, column [j] of the corner holds ['b'] where
    [n - 1 + j] is even and ['w'] elsewhere, so each column is of one
    color. *)
Theorem fill_checkerboard_on_one_shared_row
  (n : Z) (o m : nat) (c : list string) :
  0 < n ->
  (Z.to_nat n <= m)%nat ->
  (Z.to_nat n <= length c)%nat ->
  exists b' : board,
    fill_checkerboard n (repeat {| ident := o; cells := c |} m) = Ok b' /\
    forall i j, 0 <= i < Z.of_nat m -> 0 <= j < n ->
      getcell b' i j = Ok (if (n - 1 + j) mod 2 =? 0 then "b" else "w").
Proof.
  intros Hn Hm Hc. rewrite fill_checkerboard_unfold.
  destruct (paint_rows_loop_shared (Z.to_nat n) o m (Z.to_nat n) 0 c)
    as (c' & Hrun & Hlen & Hnth); [lia | lia |].
  exists (repeat {| ident := o; cells := c' |} m). split; [exact Hrun |].
  intros i j Hi Hj.
  rewrite <- (Z2Nat.id i), <- (Z2Nat.id j) by lia.
  rewrite getcell_nat, nth_error_repeat by lia. cbn [cells].
  rewrite Hnth.
  replace (Z.to_nat j <? Z.to_nat n)%nat with true by (symmetry; apply Nat.ltb_lt; lia).
  replace (0 <? Z.to_nat n)%nat with true by (symmetry; apply Nat.ltb_lt; lia).
  cbn [andb]. unfold checker.
  replace (Z.of_nat (0 + Z.to_nat n - 1)) with (n - 1) by lia.
  now rewrite !Z2Nat.id by lia.
Qed.

(** X18 at the board [[[' '] * 8] * 8]: every row ends as [wbwbwbwb]. *)
Lemma fill_checkerboard_on_shared_row_board :
  fill_checkerboard 8 (shared_row_board 8) =
    Ok (repeat {| ident := 0; cells := cells_of "wbwbwbwb" |} 8) /\
  exists b' : board,
    fill_checkerboard 8 (shared_row_board 8) = Ok b' /\
    forall i j, 0 <= i < Z.of_nat 8 -> 0 <= j < 8 ->
      getcell b' i j = Ok (if (8 - 1 + j) mod 2 =? 0 then "b" else "w").
Proof.
  split; [vm_compute; reflexivity |].
  apply (fill_checkerboard_on_one_shared_row 8 0 8 (repeat " " 8)).
  - lia.
  - vm_compute. lia.
  - vm_compute. lia.
Defined.

(** ** Tests that ask less than their names say *)

(** X14: [test_detect_row_starts_mid_sequence] checks nothing about the
    two counts but their sum not being negative: it passes for every
    engine whose three calls return and whose [detect_row] answers two
    counts that are not negative. *)
Theorem starts_mid_sequence_accepts_any_counts
  (G : Engine) (b0 b1 b2 : board) (open_c semi_c : Z) :
  make_empty_board G 8 = Ok b0 ->
  put_seq_on_board G b0 2 0 0 1 5 "b" = (Ok tt, b1) ->
  detect_row G b1 "b" 2 2 5 0 1 = (Ok (open_c, semi_c), b2) ->
  0 <= open_c -> 0 <= semi_c ->
  test_detect_row_starts_mid_sequence G = Ok tt.
Proof.
  intros H0 H1 H2 Ho Hs. unfold test_detect_row_starts_mid_sequence.
  rewrite H0. cbn [bind]. unfold exec, call.
  rewrite H1. cbn [fst snd bind]. rewrite H2. cbn [fst snd bind].
  unfold assert_true.
  replace (open_c + semi_c >=? 0) with true
    by (symmetry; apply Z.geb_le; lia).
  reflexivity.
Qed.

(** X14 at the sample engine, whose counts are (0, 0). *)
Lemma starts_mid_sequence_on_sample_engine :
  test_detect_row_starts_mid_sequence sample_engine = Ok tt.
Proof.
  apply (starts_mid_sequence_accepts_any_counts sample_engine
           (blank_board 8) (blank_board 8) (blank_board 8) 0 0);
    try reflexivity; lia.
Defined.

(** X15: [test_score_single_stone] accepts every score strictly between
    -1000 and 1000 for the board with one black stone, not only 0. *)
Theorem single_stone_test_accepts_any_small_score
  (G : Engine) (b0 b1 b2 : board) (s : Z) :
  make_empty_board G 8 = Ok b0 ->
  setcell b0 3 3 "b" = Ok b1 ->
  score G b1 = (Ok s, b2) ->
  -1000 < s < 1000 ->
  test_score_single_stone G = Ok tt.
Proof.
  intros H0 H1 H2 Hs. unfold test_score_single_stone.
  rewrite H0. cbn [bind]. rewrite H1. cbn [bind]. unfold call.
  rewrite H2. cbn [fst snd bind]. unfold assert_true.
  replace (-1000 <? s) with true by (symmetry; apply Z.ltb_lt; lia).
  replace (s <? 1000) with true by (symmetry; apply Z.ltb_lt; lia).
  reflexivity.
Qed.

(** X15 at the sample engine with the score 999 on every board. *)
Lemma single_stone_test_on_a_score_of_999 :
  test_score_single_stone
    {| make_empty_board := make_empty_board sample_engine;
       put_seq_on_board := put_seq_on_board sample_engine;
       is_empty := is_empty sample_engine;
       is_bounded := is_bounded sample_engine;
       detect_row := detect_row sample_engine;
       detect_rows := detect_rows sample_engine;
       score := fun b => (Ok 999, b);
       search_max := search_max sample_engine;
       is_win := is_win sample_engine;
       print_board := print_board sample_engine |} = Ok tt.
Proof.
  eapply (single_stone_test_accepts_any_small_score _ (blank_board 8) _ _ 999);
    [reflexivity | vm_compute; reflexivity | reflexivity | lia].
Defined.

(** ** The repository as shipped *)

